(** * Content pipeline of the Content Factory backend

    Shallow embedding of [app/services/automated_publisher.py]
    ([AutomatedContentPublisher]) and of the fan-out publisher of
    [app/services/social_media_publisher.py], with the product discovery
    and script generation they call, the [Video] table operations, and the
    routes of [app/api/routes] that drive them.

    External collaborators (the product API, the database, the script and
    avatar generators, the HTTP clients of the platforms) are the inputs of
    the model: a record [Env] gives, for each call, what that call returned
    or which exception it raised.  Everything the repository code does with
    those results (the [try]/[except] blocks, the loops, the counters of the
    result dictionary) is written out below. *)

From Stdlib Require Import String Ascii List ZArith QArith Bool Lia RelationClasses.
Import ListNotations.
Open Scope string_scope.

(** ** Exceptions and fallible calls *)

(** A Python exception: whether it is an [httpx.HTTPError] and its [str()]. *)
Record Exn := mkExn { exn_is_http : bool; exn_msg : string }.

(** What an awaited call does: return a value or raise. *)
Inductive Outcome (A : Type) : Type :=
| Ok (a : A)
| Raise (e : Exn).
Arguments Ok {A} a.
Arguments Raise {A} e.

(** [str.lower()] on ASCII text. *)
Definition lower_ascii (c : ascii) : ascii :=
  let n := nat_of_ascii c in
  if (Nat.leb 65 n && Nat.leb n 90)%nat then ascii_of_nat (n + 32)%nat else c.

Fixpoint py_lower (s : string) : string :=
  match s with
  | EmptyString => EmptyString
  | String c s' => String (lower_ascii c) (py_lower s')
  end.

(** [dict.get(key, default)] for a key holding a string, [None] when absent. *)
Definition get_default (v : option string) (d : string) : string :=
  match v with Some s => s | None => d end.

(** [str(x)] of an optional string ([None] prints as ["None"]). *)
Definition py_str_opt (v : option string) : string :=
  match v with Some s => s | None => "None" end.

(** ** Data model *)

(** One entry of the list returned by [discover_trending_products_from_api]. *)
Record ProductData := mkProductData {
  pd_name : string;
  pd_url : string
}.

(** A row of the [Product] table. *)
Record Product := mkProduct {
  product_id : Z;
  product_name : string;
  product_url : string
}.

(** The dictionary returned by [_create_content_for_product]. *)
Record ContentItem := mkContentItem {
  ci_product_id : Z;
  ci_product_name : string;
  ci_video_id : Z;
  ci_video_url : string;
  ci_script : string;
  ci_title : string;
  ci_description : string
}.

(** The dictionary returned by one platform publisher: the keys
    ["platform"], ["status"], ["post_id"], ["post_url"], ["error"]
    ([None] when the key is absent). *)
Record PubResult := mkPubResult {
  pr_platform : option string;
  pr_status : string;
  pr_post_id : option string;
  pr_post_url : option string;
  pr_error : option string
}.

(** The [SocialMediaPostCreate] built by [_publish_content]. *)
Record PostCreate := mkPostCreate {
  pc_platform : string;
  pc_content : string;
  pc_status : string;
  pc_video_id : Z
}.

(** One entry of [publication_records] in [_publish_content]. *)
Record PubRecord := mkPubRecord {
  rec_platform : option string;
  rec_status : option string;
  rec_post_id : option string;
  rec_post_url : option string;
  rec_reach : Z
}.

(** ** Collaborators *)

Record Env := mkEnv {
  (** [discover_trending_products_from_api()] *)
  env_discover_api : Outcome (list ProductData);
  (** [create_product(self.db, ProductCreate(data))] *)
  env_create_product : ProductData -> Outcome Product;
  (** [generate_video_script(product_id, self.db)] *)
  env_generate_script : Product -> Outcome string;
  (** [create_video(self.db, video_create)]: the new video id *)
  env_create_video : Product -> string -> Outcome Z;
  (** [create_avatar_video(script, avatar_settings)]: the video URL *)
  env_create_avatar_video : string -> Outcome string;
  (** [update_video(self.db, video_id, ...)] *)
  env_update_video : Z -> string -> Outcome unit;
  (** body of [publish_to_tiktok] (client and simulated delay) *)
  env_tiktok : string -> string -> Outcome unit;
  (** [settings.INSTAGRAM_PAGE_ID] *)
  env_instagram_page_id : string;
  (** the two Graph API calls of [publish_to_instagram]: [result.get("id")] *)
  env_instagram : string -> string -> Outcome (option string);
  (** body of [publish_to_youtube] (client and simulated delay) *)
  env_youtube : string -> string -> string -> Outcome unit;
  (** [create_post(self.db, post_create)] *)
  env_create_post : PostCreate -> Outcome unit
}.

(** ** [social_media_publisher.py] *)

Section Publishers.
Variable env : Env.

(** The [except httpx.HTTPError] / [except Exception] pair shared by the
    three publishers. *)
Definition failed_result (platform : string) (e : Exn) : PubResult :=
  mkPubResult (Some platform) "failed" None None
    (Some (if exn_is_http e then "HTTP error: " ++ exn_msg e else exn_msg e)).

Definition publish_to_tiktok (video_url caption : string) : Outcome PubResult :=
  match env_tiktok env video_url caption with
  | Ok _ =>
      Ok (mkPubResult (Some "tiktok") "published" (Some "tiktok_123456789")
            (Some "https://www.tiktok.com/@user/video/123456789") None)
  | Raise e => Ok (failed_result "tiktok" e)
  end.

Definition publish_to_instagram (video_url caption : string) : Outcome PubResult :=
  if String.eqb (env_instagram_page_id env) "" then
    Ok (failed_result "instagram"
          (mkExn false "INSTAGRAM_PAGE_ID is not set in environment variables"))
  else
    match env_instagram env video_url caption with
    | Ok id =>
        Ok (mkPubResult (Some "instagram") "published" id
              (Some ("https://www.instagram.com/p/" ++ py_str_opt id ++ "/")) None)
    | Raise e => Ok (failed_result "instagram" e)
    end.

Definition publish_to_youtube (video_url title description : string) : Outcome PubResult :=
  match env_youtube env video_url title description with
  | Ok _ =>
      (* the success dictionary has "video_id", not "post_id" *)
      Ok (mkPubResult (Some "youtube") "published" None
            (Some "https://www.youtube.com/watch?v=ABC123") None)
  | Raise e => Ok (failed_result "youtube" e)
  end.

(** [asyncio.gather(tasks, return_exceptions=True)] followed by the loop
    that turns a returned exception into [{"status": "error", ...}]. *)
Definition gather_results (results : list (Outcome PubResult)) : list PubResult :=
  map (fun r => match r with
                | Ok d => d
                | Raise e => mkPubResult None "error" None None (Some (exn_msg e))
                end) results.

Definition publish_to_multiple_platforms (video_url title description : string)
  : list PubResult :=
  gather_results
    [ publish_to_tiktok video_url description;
      publish_to_instagram video_url description;
      publish_to_youtube video_url title description ].

End Publishers.

(** ** [automated_publisher.py] *)

(** [_estimate_platform_reach]: the [reach_estimates] table, looked up with
    [platform.lower()] and the default [1000]. *)
Definition reach_estimates (platform : string) : option Z :=
  if String.eqb platform "tiktok" then Some 10000%Z
  else if String.eqb platform "instagram" then Some 5000%Z
  else if String.eqb platform "youtube" then Some 3000%Z
  else if String.eqb platform "facebook" then Some 2000%Z
  else if String.eqb platform "twitter" then Some 1500%Z
  else None.

Definition estimate_platform_reach (platform : string) : Z :=
  match reach_estimates (py_lower platform) with
  | Some r => r
  | None => 1000%Z
  end.

(** [round(x, 2)]: nearest multiple of [1/100], ties to even.  The float
    arithmetic of the source is read as exact rational arithmetic. *)
Definition py_round2 (x : Q) : Q :=
  let y := (x * 100)%Q in
  let n := Qnum y in
  let d := Zpos (Qden y) in
  let q := (n / d)%Z in
  let r := (n mod d)%Z in
  let k := if (2 * r <? d)%Z then q
           else if (d <? 2 * r)%Z then (q + 1)%Z
           else if Z.even q then q else (q + 1)%Z in
  (k # 100)%Q.

Definition opt_string_dec (x y : option string) : {x = y} + {x <> y}.
Proof. decide equality; apply string_dec. Defined.

(** [item.get("status") == "published"] *)
Definition is_published (r : PubRecord) : bool :=
  match rec_status r with
  | Some s => String.eqb s "published"
  | None => false
  end.

(** The dictionary returned by [_calculate_pipeline_metrics]. *)
Record Metrics := mkMetrics {
  m_platforms_reached : list (option string);
  m_total_potential_reach : Z;
  m_success_rate : Q;
  m_successful_publications : nat;
  m_failed_publications : nat
}.

Definition calculate_pipeline_metrics (publication_results : list PubRecord) : Metrics :=
  let total_reach := fold_right Z.add 0%Z (map rec_reach publication_results) in
  let successful_posts := length (filter is_published publication_results) in
  let total_posts := length publication_results in
  (* list(set(...)): distinct values, in no particular order *)
  let platforms_reached :=
    nodup opt_string_dec (map rec_platform (filter is_published publication_results)) in
  let success_rate :=
    if (0 <? total_posts)%nat
    then (inject_Z (Z.of_nat successful_posts) / inject_Z (Z.of_nat total_posts) * 100)%Q
    else 0%Q in
  mkMetrics platforms_reached total_reach (py_round2 success_rate)
    successful_posts (total_posts - successful_posts).

(** The [pipeline_results] dictionary. *)
Inductive RunStatus := Started | Completed | Failed.

Record PipelineResults := mkPR {
  status : RunStatus;
  products_discovered : nat;
  videos_created : nat;
  posts_published : nat;
  platforms_reached : list (option string);
  total_potential_reach : Z;
  errors : list string;
  success_rate : Q;
  (* keys added by [pipeline_results.update(...)] *)
  successful_publications : option nat;
  failed_publications : option nat
}.

Definition initial_results : PipelineResults :=
  mkPR Started 0 0 0 [] 0%Z [] 0%Q None None.

Definition set_status (v : RunStatus) (r : PipelineResults) : PipelineResults :=
  mkPR v (products_discovered r) (videos_created r) (posts_published r)
    (platforms_reached r) (total_potential_reach r) (errors r) (success_rate r)
    (successful_publications r) (failed_publications r).

Definition set_products_discovered (v : nat) (r : PipelineResults) : PipelineResults :=
  mkPR (status r) v (videos_created r) (posts_published r)
    (platforms_reached r) (total_potential_reach r) (errors r) (success_rate r)
    (successful_publications r) (failed_publications r).

Definition incr_videos_created (r : PipelineResults) : PipelineResults :=
  mkPR (status r) (products_discovered r) (S (videos_created r)) (posts_published r)
    (platforms_reached r) (total_potential_reach r) (errors r) (success_rate r)
    (successful_publications r) (failed_publications r).

Definition add_posts_published (n : nat) (r : PipelineResults) : PipelineResults :=
  mkPR (status r) (products_discovered r) (videos_created r) (posts_published r + n)
    (platforms_reached r) (total_potential_reach r) (errors r) (success_rate r)
    (successful_publications r) (failed_publications r).

(** [pipeline_results["errors"].append(msg)] *)
Definition add_error (msg : string) (r : PipelineResults) : PipelineResults :=
  mkPR (status r) (products_discovered r) (videos_created r) (posts_published r)
    (platforms_reached r) (total_potential_reach r) (errors r ++ [msg]) (success_rate r)
    (successful_publications r) (failed_publications r).

(** [pipeline_results.update(metrics)] *)
Definition update_metrics (m : Metrics) (r : PipelineResults) : PipelineResults :=
  mkPR (status r) (products_discovered r) (videos_created r) (posts_published r)
    (m_platforms_reached m) (m_total_potential_reach m) (errors r) (m_success_rate m)
    (Some (m_successful_publications m)) (Some (m_failed_publications m)).

(** The state of one call of [execute_full_content_pipeline]: the result
    dictionary, the [Product] table, and the two local lists
    [content_items] and [publication_results]. *)
Record St := mkSt {
  st_results : PipelineResults;
  st_db : list Product;
  st_content_items : list ContentItem;
  st_publications : list PubRecord
}.

(** State and exception monad: a raised exception keeps the state reached
    when it was raised, as Python's mutations do. *)
Definition M (A : Type) : Type := St -> Outcome A * St.

Definition ret {A} (a : A) : M A := fun s => (Ok a, s).

Definition bind {A B} (m : M A) (f : A -> M B) : M B :=
  fun s => match m s with
           | (Ok a, s') => f a s'
           | (Raise e, s') => (Raise e, s')
           end.

Notation "x <- m ;; k" := (bind m (fun x => k))
  (at level 61, m at next level, right associativity).
Notation "m ;;; k" := (bind m (fun _ => k))
  (at level 61, right associativity).

Definition lift {A} (o : Outcome A) : M A := fun s => (o, s).

Definition get : M St := fun s => (Ok s, s).

Definition modify (f : St -> St) : M unit := fun s => (Ok tt, f s).

(** [try: m except Exception as e: h(e)] *)
Definition try_except {A} (m : M A) (h : Exn -> M A) : M A :=
  fun s => match m s with
           | (Ok a, s') => (Ok a, s')
           | (Raise e, s') => h e s'
           end.

Definition modify_results (f : PipelineResults -> PipelineResults) : M unit :=
  modify (fun s => mkSt (f (st_results s)) (st_db s) (st_content_items s) (st_publications s)).

Definition add_product_row (p : Product) : M unit :=
  modify (fun s => mkSt (st_results s) (st_db s ++ [p]) (st_content_items s) (st_publications s)).

Definition push_content_item (c : ContentItem) : M unit :=
  modify (fun s => mkSt (st_results s) (st_db s) (st_content_items s ++ [c]) (st_publications s)).

Definition extend_publications (l : list PubRecord) : M unit :=
  modify (fun s => mkSt (st_results s) (st_db s) (st_content_items s) (st_publications s ++ l)).

(** [l[:n]] on a Python list. *)
Definition py_slice_upto {A} (l : list A) (n : Z) : list A :=
  if (0 <=? n)%Z then firstn (Z.to_nat n) l
  else firstn (length l - Z.to_nat (- n)) l.

Section Pipeline.
Variable env : Env.

(** The loop of [_discover_and_save_products]: look the URL up in the
    [Product] table ([.first()]), create the row when absent; an exception
    skips the entry ([continue]). *)
Fixpoint save_products (items : list ProductData) (saved_products : list Product)
  : M (list Product) :=
  match items with
  | [] => ret saved_products
  | data :: rest =>
      saved' <- try_except
        (s <- get ;;
         match find (fun p => String.eqb (product_url p) (pd_url data)) (st_db s) with
         | None =>
             product <- lift (env_create_product env data) ;;
             add_product_row product ;;;
             ret (saved_products ++ [product])%list
         | Some existing => ret (saved_products ++ [existing])%list
         end)
        (fun _ => ret saved_products) ;;
      save_products rest saved'
  end.

Definition discover_and_save_products (limit : Z) : M (list Product) :=
  try_except
    (product_data <- lift (env_discover_api env) ;;
     save_products (py_slice_upto product_data limit) [])
    (fun _ => ret []).

Definition video_title (p : Product) : string :=
  "Discover " ++ product_name p ++ " - Trending Now!".

Definition video_description (p : Product) : string :=
  "Check out this amazing " ++ product_name p ++ " that's trending everywhere!".

Definition create_content_for_product (product : Product) : M (option ContentItem) :=
  try_except
    (script <- lift (env_generate_script env product) ;;
     if String.eqb script "" || String.eqb script "Product not found" then ret None
     else
       video_id <- lift (env_create_video env product script) ;;
       video_url <- lift (env_create_avatar_video env script) ;;
       lift (env_update_video env video_id video_url) ;;;
       ret (Some (mkContentItem (product_id product) (product_name product) video_id
                    video_url script (video_title product) (video_description product))))
    (fun _ => ret None).

(** One entry of [publication_records]. *)
Definition publication_record (result : PubResult) : PubRecord :=
  mkPubRecord (pr_platform result) (Some (pr_status result)) (pr_post_id result)
    (pr_post_url result)
    (estimate_platform_reach (get_default (pr_platform result) "unknown")).

(** The loop of [_publish_content] saving one post per result; a failing
    [create_post] skips the result ([continue]). *)
Fixpoint save_publication_records (content_item : ContentItem) (results : list PubResult)
  (publication_records : list PubRecord) : M (list PubRecord) :=
  match results with
  | [] => ret publication_records
  | result :: rest =>
      records' <- try_except
        (let post_create :=
           mkPostCreate (get_default (pr_platform result) "unknown")
             (ci_description content_item)
             (if String.eqb (pr_status result) "published" then "published" else "failed")
             (ci_video_id content_item) in
         lift (env_create_post env post_create) ;;;
         ret (publication_records ++ [publication_record result])%list)
        (fun _ => ret publication_records) ;;
      save_publication_records content_item rest records'
  end.

(** [_publish_content(content_item, platforms)]; as in the source,
    [platforms] is not passed on to [publish_to_multiple_platforms]. *)
Definition publish_content (content_item : ContentItem) (platforms : list string)
  : M (list PubRecord) :=
  try_except
    (let results := publish_to_multiple_platforms env (ci_video_url content_item)
                      (ci_title content_item) (ci_description content_item) in
     save_publication_records content_item results [])
    (fun _ => ret []).

(** Step 2 of [execute_full_content_pipeline]. *)
Fixpoint generation_loop (products : list Product) : M unit :=
  match products with
  | [] => ret tt
  | product :: rest =>
      try_except
        (content_item <- create_content_for_product product ;;
         match content_item with
         | Some c => push_content_item c ;;; modify_results incr_videos_created
         | None => ret tt
         end)
        (fun e => modify_results (add_error ("Video creation failed: " ++ exn_msg e))) ;;;
      generation_loop rest
  end.

(** Step 3 of [execute_full_content_pipeline]. *)
Fixpoint publishing_loop (content_items : list ContentItem) (target_platforms : list string)
  : M unit :=
  match content_items with
  | [] => ret tt
  | content_item :: rest =>
      try_except
        (pub_result <- publish_content content_item target_platforms ;;
         extend_publications pub_result ;;;
         modify_results (add_posts_published (length pub_result)))
        (fun e => modify_results (add_error ("Publishing failed: " ++ exn_msg e))) ;;;
      publishing_loop rest target_platforms
  end.

(** The body of the outer [try] of [execute_full_content_pipeline]. *)
Definition pipeline_body (target_platforms : list string) (product_limit : Z) : M unit :=
  products <- discover_and_save_products product_limit ;;
  modify_results (set_products_discovered (length products)) ;;;
  match products with
  | [] =>
      modify_results (set_status Failed) ;;;
      modify_results (add_error "No trending products found")
  | _ :: _ =>
      generation_loop products ;;;
      s <- get ;;
      publishing_loop (st_content_items s) target_platforms ;;;
      s' <- get ;;
      modify_results (update_metrics (calculate_pipeline_metrics (st_publications s'))) ;;;
      modify_results (set_status Completed)
  end.

(** [execute_full_content_pipeline(target_platforms, product_limit)] run
    against the [Product] table [db]; the returned dictionary is
    [st_results] of the final state. *)
Definition execute_full_content_pipeline (target_platforms : list string)
  (product_limit : Z) (db : list Product) : St :=
  snd (try_except (pipeline_body target_platforms product_limit)
         (fun e => modify_results (set_status Failed) ;;;
                   modify_results (add_error ("Pipeline error: " ++ exn_msg e)))
         (mkSt initial_results db [] [])).

End Pipeline.

(** ** Concrete collaborators used to evaluate the model *)

Definition three_products : list ProductData :=
  [ mkProductData "Desk Lamp" "https://shop.example/lamp";
    mkProductData "Travel Mug" "https://shop.example/mug";
    mkProductData "Yoga Mat" "https://shop.example/mat" ].

(** Collaborators that succeed except where a parameter says otherwise. *)
Definition test_env (api : Outcome (list ProductData)) (gen : Product -> Outcome string)
  (page_id : string) (youtube : Outcome unit) (post : PostCreate -> Outcome unit) : Env :=
  mkEnv api
    (fun d => Ok (mkProduct (Z.of_nat (String.length (pd_url d))) (pd_name d) (pd_url d)))
    gen
    (fun p _ => Ok (product_id p * 10)%Z)
    (fun _ => Ok "https://videos.example/avatar.mp4")
    (fun _ _ => Ok tt)
    (fun _ _ => Ok tt)
    page_id
    (fun _ _ => Ok (Some "ig_1"))
    (fun _ _ _ => youtube)
    post.

Definition script_for (p : Product) : Outcome string :=
  Ok ("Meet the " ++ product_name p ++ "!").

Definition network_down : Exn := mkExn true "connection refused".

(** Everything succeeds. *)
Definition env_all_ok (api : list ProductData) : Env :=
  test_env (Ok api) script_for "page_1" (Ok tt) (fun _ => Ok tt).

(** Instagram is not configured and the YouTube client raises. *)
Definition env_partial : Env :=
  test_env (Ok [mkProductData "Desk Lamp" "https://shop.example/lamp"]) script_for ""
    (Raise network_down) (fun _ => Ok tt).

(** Script generation raises for every product. *)
Definition env_script_raises : Env :=
  test_env (Ok [mkProductData "Desk Lamp" "https://shop.example/lamp"])
    (fun _ => Raise (mkExn false "OpenAI quota exceeded")) "page_1" (Ok tt) (fun _ => Ok tt).

(** Every [create_post] raises. *)
Definition env_post_raises : Env :=
  test_env (Ok [mkProductData "Desk Lamp" "https://shop.example/lamp"]) script_for "page_1"
    (Ok tt) (fun _ => Raise (mkExn false "database is locked")).

Definition default_platforms : list string := ["tiktok"; "instagram"; "youtube"].

(** ** Reasoning about the monad *)

(** A computation that never raises. *)
Definition NoRaise {A} (m : M A) : Prop :=
  forall s, exists a, fst (m s) = Ok a.

(** A computation whose final state is related to its initial one. *)
Definition Frame (P : St -> St -> Prop) {A} (m : M A) : Prop :=
  forall s, P s (snd (m s)).

Definition keeps_core (r r' : PipelineResults) : Prop :=
  status r' = status r /\ products_discovered r' = products_discovered r /\
  errors r' = errors r.

(** Discovery touches only the [Product] table. *)
Definition discover_rel (s s' : St) : Prop :=
  st_results s' = st_results s /\ st_content_items s' = st_content_items s /\
  st_publications s' = st_publications s.

(** The item loops leave the status, [products_discovered] and [errors]. *)
Definition loop_rel (s s' : St) : Prop := keeps_core (st_results s) (st_results s').

Definition rec_reach_ok (r : PubRecord) : Prop :=
  rec_reach r = estimate_platform_reach (get_default (rec_platform r) "unknown").

(** The publication records only grow by well-formed records. *)
Definition pubs_ok_rel (s s' : St) : Prop :=
  Forall rec_reach_ok (st_publications s) -> Forall rec_reach_ok (st_publications s').

Definition initial_state (db : list Product) : St := mkSt initial_results db [] [].

(** ** Product discovery ([product_discovery.py]) *)

(** One product of the FakeStore JSON: the value of each key the code reads
    ([None] when the key is absent); a number is given by its [str()]. *)
Record RawProduct := mkRawProduct {
  raw_id : option string;
  raw_title : option string;
  raw_description : option string;
  raw_price : option string;
  raw_image : option string
}.

(** The [trending_product] dictionary. *)
Record TrendingProduct := mkTrendingProduct {
  tp_name : string;
  tp_description : string;
  tp_price : string;
  tp_url : string;
  tp_image_url : string;
  tp_is_trending : bool
}.

Definition to_trending_product (product : RawProduct) : TrendingProduct :=
  let price_str := "$" ++ get_default (raw_price product) "0" in
  mkTrendingProduct
    (get_default (raw_title product) "Unknown Product")
    (get_default (raw_description product) "No description available")
    price_str
    ("https://fakestoreapi.com/products/" ++ get_default (raw_id product) "")
    (get_default (raw_image product) "")
    true.

(** The [for product in products_data] loop, with its [break] once ten
    products are collected. *)
Fixpoint trending_loop (products_data : list RawProduct)
  (trending_products : list TrendingProduct) : list TrendingProduct :=
  match products_data with
  | [] => trending_products
  | product :: rest =>
      let trending_products' := (trending_products ++ [to_trending_product product])%list in
      if (10 <=? length trending_products')%nat then trending_products'
      else trending_loop rest trending_products'
  end.

(** [discover_trending_products_from_api()]; [response] is what
    [client.get], [raise_for_status] and [response.json()] gave together.
    Both [except] branches return [[]]. *)
Definition discover_trending_products_from_api (response : Outcome (list RawProduct))
  : list TrendingProduct :=
  match response with
  | Ok products_data => trending_loop products_data []
  | Raise _ => []
  end.

(** The keys of a discovered dictionary that [_discover_and_save_products]
    uses: [data["url"]] and the name of [ProductCreate(data)]. *)
Definition trending_product_data (tp : TrendingProduct) : ProductData :=
  mkProductData (tp_name tp) (tp_url tp).

(** ** Script generation ([video_generation.py]) *)

(** A row of the [Product] table with the columns the script reads. *)
Record ProductRow := mkProductRow {
  row_id : Z;
  row_name : option string;
  row_description : option string;
  row_price : option string
}.

(** [get_product_by_id(db, product_id)]: the first row with that id; a query
    that raises is caught and gives [None]. *)
Definition get_product_by_id (table : Outcome (list ProductRow)) (product_id : Z)
  : option ProductRow :=
  match table with
  | Ok rows => find (fun r => Z.eqb (row_id r) product_id) rows
  | Raise _ => None
  end.

(** [str.isspace()] on an ASCII character: [\t \n \x0b \x0c \r],
    [\x1c] to [\x1f] and the space. *)
Definition is_py_space (c : ascii) : bool :=
  let n := nat_of_ascii c in
  ((Nat.leb 9 n && Nat.leb n 13) || (Nat.leb 28 n && Nat.leb n 32))%nat.

Fixpoint py_lstrip (s : string) : string :=
  match s with
  | EmptyString => EmptyString
  | String c s' => if is_py_space c then py_lstrip s' else s
  end.

Fixpoint py_rstrip (s : string) : string :=
  match s with
  | EmptyString => EmptyString
  | String c s' =>
      if is_py_space c then
        (let r := py_rstrip s' in if String.eqb r "" then "" else String c r)
      else String c (py_rstrip s')
  end.

(** [s.strip()] *)
Definition py_strip (s : string) : string := py_rstrip (py_lstrip s).

Definition nl : string := String (ascii_of_nat 10) EmptyString.

(** The f-string [script_template], line by line (each source line is
    indented by four spaces). *)
Definition script_template (product : ProductRow) : string :=
  let name := py_str_opt (row_name product) in
  nl ++
  "    [Opening Scene]" ++ nl ++
  "    Hey everyone! Today I'm excited to show you " ++ name ++ "." ++ nl ++
  "    " ++ nl ++
  "    [Product Introduction]" ++ nl ++
  "    " ++ py_str_opt (row_description product) ++ nl ++
  "    This amazing product is priced at just " ++ py_str_opt (row_price product) ++ "." ++ nl ++
  "    " ++ nl ++
  "    [Key Features]" ++ nl ++
  "    Here are the key features that make this product stand out:" ++ nl ++
  "    1. High quality construction" ++ nl ++
  "    2. Easy to use" ++ nl ++
  "    3. Great value for money" ++ nl ++
  "    " ++ nl ++
  "    [Call to Action]" ++ nl ++
  "    If you're interested in " ++ name ++ ", check out the link in the description!" ++ nl ++
  "    " ++ nl ++
  "    [Closing]" ++ nl ++
  "    Thanks for watching, and don't forget to like and subscribe for more great products!" ++ nl ++
  "    ".

(** [generate_video_script(product_id, db)] (the unused [prompt] is left out). *)
Definition generate_video_script (table : Outcome (list ProductRow)) (product_id : Z) : string :=
  match get_product_by_id table product_id with
  | None => "Product not found"
  | Some product => py_strip (script_template product)
  end.

(** ** The [Video] table ([video_generation.py]) *)

Record VideoRow := mkVideoRow {
  vr_id : Z;
  vr_title : option string;
  vr_description : option string;
  vr_script : option string;
  vr_video_url : option string;
  vr_thumbnail_url : option string;
  vr_status : option string;
  vr_product_id : option Z
}.

(** A [VideoUpdate]: [None] for a field that was not set, [Some v] for a
    field set to [v] (which may itself be [None]). *)
Record VideoUpdate := mkVideoUpdate {
  vu_title : option (option string);
  vu_description : option (option string);
  vu_script : option (option string);
  vu_video_url : option (option string);
  vu_thumbnail_url : option (option string);
  vu_status : option (option string);
  vu_product_id : option (option Z)
}.

(** [get_video_by_id]: [.first()] of the rows with that id. *)
Definition get_video_by_id (db : list VideoRow) (video_id : Z) : option VideoRow :=
  find (fun v => Z.eqb (vr_id v) video_id) db.

(** [setattr(db_video, key, value)] for a key of [dict(exclude_unset=True)]. *)
Definition set_if_set {A} (update : option A) (old : A) : A :=
  match update with Some v => v | None => old end.

Definition apply_video_update (v : VideoRow) (u : VideoUpdate) : VideoRow :=
  mkVideoRow (vr_id v)
    (set_if_set (vu_title u) (vr_title v))
    (set_if_set (vu_description u) (vr_description v))
    (set_if_set (vu_script u) (vr_script v))
    (set_if_set (vu_video_url u) (vr_video_url v))
    (set_if_set (vu_thumbnail_url u) (vr_thumbnail_url v))
    (set_if_set (vu_status u) (vr_status v))
    (set_if_set (vu_product_id u) (vr_product_id v)).

(** The row found by [get_video_by_id], replaced or removed in the table. *)
Fixpoint replace_video (db : list VideoRow) (video_id : Z) (v' : VideoRow) : list VideoRow :=
  match db with
  | [] => []
  | v :: rest => if Z.eqb (vr_id v) video_id then v' :: rest
                 else v :: replace_video rest video_id v'
  end.

Fixpoint remove_video (db : list VideoRow) (video_id : Z) : list VideoRow :=
  match db with
  | [] => []
  | v :: rest => if Z.eqb (vr_id v) video_id then rest else v :: remove_video rest video_id
  end.

(** [update_video(db, video_id, video)]: the returned row and the table
    after the commit.  [commit v'] is what [db.commit()] does with the
    updated row [v'] (an [IntegrityError] of the database is a [Raise]);
    when it raises, the exception propagates and the transaction leaves
    the table as it was. *)
Definition update_video (db : list VideoRow) (video_id : Z) (video : VideoUpdate)
  (commit : VideoRow -> Outcome unit) : Outcome (option VideoRow) * list VideoRow :=
  match get_video_by_id db video_id with
  | Some db_video =>
      let db_video' := apply_video_update db_video video in
      match commit db_video' with
      | Ok _ => (Ok (Some db_video'), replace_video db video_id db_video')
      | Raise e => (Raise e, db)
      end
  | None => (Ok None, db)
  end.

(** [delete_video(db, video_id)] *)
Definition delete_video (db : list VideoRow) (video_id : Z) : bool * list VideoRow :=
  match get_video_by_id db video_id with
  | Some _ => (true, remove_video db video_id)
  | None => (false, db)
  end.

(** ** Routes ([api/routes/social_media.py], [api/routes/videos.py]) *)

(** What a route handler gives FastAPI: a body, or a raised
    [HTTPException(status_code, detail)]. *)
Inductive HttpResponse (A : Type) : Type :=
| Respond (body : A)
| HttpError (status_code : Z) (detail : string).
Arguments Respond {A} body.
Arguments HttpError {A} status_code detail.

(** The body of [publish_video_to_platforms]. *)
Record PublishVideoBody := mkPublishVideoBody {
  pv_status : string;
  pv_video_id : Z;
  pv_platforms_published : nat;
  pv_results : list PubResult
}.

(** [r.get("status") == "published"] on a publisher result. *)
Definition result_published (r : PubResult) : bool := String.eqb (pr_status r) "published".

(** The route [POST /publish-video/{video_id}]; the [platforms] parameter
    is not used by the handler. *)
Definition publish_video_to_platforms (env : Env) (db : list VideoRow) (video_id : Z)
  (platforms : list string) : HttpResponse PublishVideoBody :=
  match get_video_by_id db video_id with
  | None => HttpError 404 "Video not found"
  | Some video =>
      let video_url := get_default (vr_video_url video) "https://example.com/sample-video.mp4" in
      let title := get_default (vr_title video) "Untitled Video" in
      let description := get_default (vr_description video) "Check out this amazing product!" in
      let results := publish_to_multiple_platforms env video_url title description in
      let successful_publishes := filter result_published results in
      Respond (mkPublishVideoBody "completed" video_id (length successful_publishes) results)
  end.

(** The dictionary returned by [quick_content_generation_test(db)]. *)
Record QuickTestResult := mkQuickTestResult {
  qt_test_status : string;
  qt_pipeline_result : PipelineResults;
  qt_message : string
}.

Definition quick_content_generation_test (env : Env) (db : list Product) : QuickTestResult :=
  mkQuickTestResult "completed"
    (st_results (execute_full_content_pipeline env ["tiktok"; "instagram"; "youtube"] 2 db))
    "Content generation pipeline test completed successfully!".

(** The body of the route [POST /test-automation-pipeline]. *)
Record TestPipelineBody := mkTestPipelineBody {
  tb_test_status : string;
  tb_pipeline_health : string;
  tb_test_results : QuickTestResult;
  tb_message : string;
  tb_ready_for_production : bool
}.

(** The [try] body; [quick_content_generation_test] returns normally, so
    the [except] branch (HTTP 500) is not reached. *)
Definition test_automation_pipeline (env : Env) (db : list Product)
  : HttpResponse TestPipelineBody :=
  let result := quick_content_generation_test env db in
  Respond (mkTestPipelineBody "completed"
             (if String.eqb (qt_test_status result) "completed" then "healthy"
              else "needs_attention")
             result "Automation pipeline test completed successfully!" true).

(** The body of the route [POST /one-click-generate-publish], without its
    constant strings and with [success_rate] left unformatted. *)
Record OneClickBody := mkOneClickBody {
  oc_pipeline_results : PipelineResults;
  oc_products_discovered : nat;
  oc_videos_generated : nat;
  oc_posts_published : nat;
  oc_platforms_reached : list (option string);
  oc_estimated_total_reach : Z;
  oc_success_rate : Q;
  oc_content_pieces_live : nat;
  oc_platforms_active : nat;
  oc_automation_status : RunStatus
}.

(** The [try] body of [one_click_generate_and_publish]; every key it reads
    is present in the result dictionary, so [.get] returns its value. *)
Definition one_click_generate_and_publish (env : Env) (db : list Product)
  : HttpResponse OneClickBody :=
  let result :=
    st_results (execute_full_content_pipeline env ["tiktok"; "instagram"; "youtube"] 3 db) in
  Respond (mkOneClickBody result
             (products_discovered result) (videos_created result) (posts_published result)
             (platforms_reached result) (total_potential_reach result) (success_rate result)
             (videos_created result) (length (platforms_reached result)) (status result)).

(** The platforms the fan-out publishes to. *)
Definition fanout_platform (r : PubRecord) : Prop :=
  In (rec_platform r) [Some "tiktok"; Some "instagram"; Some "youtube"].

(** Twelve FakeStore products, and a pipeline fed by their discovery. *)
Definition twelve_raw_products : list RawProduct :=
  map (fun i => mkRawProduct (Some (String (ascii_of_nat (48 + i)) EmptyString))
                  (Some "Item") None (Some "9.99") None) (seq 0 12).

Definition env_fakestore : Env :=
  env_all_ok (map trending_product_data
                (discover_trending_products_from_api (Ok twelve_raw_products))).




(** A [Video] table with two rows. *)
Definition two_videos : list VideoRow :=
  [ mkVideoRow 1 (Some "Desk Lamp") (Some "A lamp") None
      (Some "https://videos.example/1.mp4") None (Some "completed") (Some 1%Z);
    mkVideoRow 2 None None None None None (Some "pending") None ].

Section MonadLemmas.
Context {A B : Type}.

Lemma noraise_ret (a : A) : NoRaise (ret a).
Proof. intros s; exists a; reflexivity. Qed.

Lemma noraise_get : NoRaise get.
Proof. intros s; exists s; reflexivity. Qed.

Lemma noraise_modify f : NoRaise (modify f).
Proof. intros s; exists tt; reflexivity. Qed.

Lemma noraise_bind (m : M A) (f : A -> M B) :
  NoRaise m -> (forall a, NoRaise (f a)) -> NoRaise (bind m f).
Proof.
  intros Hm Hf s; unfold bind.
  destruct (Hm s) as [a Ha]; destruct (m s) as [o s']; simpl in Ha; subst o.
  apply Hf.
Qed.

Lemma noraise_try (m : M A) (h : Exn -> M A) :
  (forall e, NoRaise (h e)) -> NoRaise (try_except m h).
Proof.
  intros Hh s; unfold try_except.
  destruct (m s) as [[a|e] s']; [exists a; reflexivity | apply Hh].
Qed.

(** A [try] whose body never raises is its body. *)
Lemma try_noraise_eq (m : M A) (h : Exn -> M A) s :
  NoRaise m -> try_except m h s = m s.
Proof.
  intros Hm; unfold try_except.
  destruct (Hm s) as [a Ha]; destruct (m s) as [o s']; simpl in Ha; subst o; reflexivity.
Qed.

Lemma bind_ok (m : M A) (f : A -> M B) s a s' :
  m s = (Ok a, s') -> bind m f s = f a s'.
Proof. intros E; unfold bind; rewrite E; reflexivity. Qed.

Lemma bind_modify_results f (k : unit -> M B) s :
  bind (modify_results f) k s =
  k tt (mkSt (f (st_results s)) (st_db s) (st_content_items s) (st_publications s)).
Proof. reflexivity. Qed.

Lemma bind_get (k : St -> M B) s : bind get k s = k s s.
Proof. reflexivity. Qed.

Context {P : St -> St -> Prop} `{PreOrder St P}.

Lemma frame_ret (a : A) : Frame P (ret a).
Proof. intros s; simpl; reflexivity. Qed.

Lemma frame_get : Frame P get.
Proof. intros s; simpl; reflexivity. Qed.

Lemma frame_lift (o : Outcome A) : Frame P (lift o).
Proof. intros s; simpl; reflexivity. Qed.

Lemma frame_modify f : (forall s, P s (f s)) -> Frame P (modify f).
Proof. intros Hf s; apply Hf. Qed.

Lemma frame_bind (m : M A) (f : A -> M B) :
  Frame P m -> (forall a, Frame P (f a)) -> Frame P (bind m f).
Proof.
  intros Hm Hf s; unfold bind.
  pose proof (Hm s) as Hs; destruct (m s) as [[a|e] s']; simpl in *.
  - etransitivity; [exact Hs | apply Hf].
  - exact Hs.
Qed.

Lemma frame_try (m : M A) (h : Exn -> M A) :
  Frame P m -> (forall e, Frame P (h e)) -> Frame P (try_except m h).
Proof.
  intros Hm Hh s; unfold try_except.
  pose proof (Hm s) as Hs; destruct (m s) as [[a|e] s']; simpl in *.
  - exact Hs.
  - etransitivity; [exact Hs | apply Hh].
Qed.

Lemma frame_try_noraise (m : M A) (h : Exn -> M A) :
  NoRaise m -> Frame P m -> Frame P (try_except m h).
Proof. intros Hn Hm s; rewrite try_noraise_eq by exact Hn; apply Hm. Qed.

Lemma frame_weaken (Q : St -> St -> Prop) (m : M A) :
  (forall s s', P s s' -> Q s s') -> Frame P m -> Frame Q m.
Proof. intros HPQ Hm s; apply HPQ, Hm. Qed.

End MonadLemmas.

Create HintDb pipeline.
#[export] Hint Resolve noraise_ret noraise_get noraise_modify noraise_bind noraise_try
  : pipeline.
#[export] Hint Unfold modify_results push_content_item extend_publications add_product_row
  : pipeline.

(** ** Frames of the steps *)

#[export] Instance discover_rel_preorder : PreOrder discover_rel.
Proof.
  split.
  - intros s; repeat split.
  - intros s1 s2 s3 (H1 & H2 & H3) (H4 & H5 & H6); repeat split; congruence.
Qed.

#[export] Instance loop_rel_preorder : PreOrder loop_rel.
Proof.
  split.
  - intros s; repeat split.
  - intros s1 s2 s3 (H1 & H2 & H3) (H4 & H5 & H6); repeat split; congruence.
Qed.

(** One structural step of a frame proof for the relation [R]. *)
Ltac frame_step R :=
  match goal with
  | |- Frame _ (bind _ _) => apply (frame_bind (P:=R)); [| intros ?]
  | |- Frame _ (ret _) => apply (frame_ret (P:=R))
  | |- Frame _ get => apply (frame_get (P:=R))
  | |- Frame _ (lift _) => apply (frame_lift (P:=R))
  | |- Frame _ (try_except _ _) => apply (frame_try (P:=R)); [| intros ?]
  | |- Frame _ (modify _) => apply (frame_modify (P:=R)); intros ?
  | |- Frame _ (modify_results _) => unfold modify_results
  | |- Frame _ (push_content_item _) => unfold push_content_item
  | |- Frame _ (extend_publications _) => unfold extend_publications
  | |- Frame _ (add_product_row _) => unfold add_product_row
  | |- Frame _ (match ?x with _ => _ end) => destruct x
  end.

Section Steps.
Variable env : Env.

Lemma save_products_frame items saved :
  Frame discover_rel (save_products env items saved).
Proof.
  revert saved; induction items as [|data rest IH]; intros saved; simpl.
  - frame_step discover_rel.
  - frame_step discover_rel; [| apply IH].
    repeat frame_step discover_rel; repeat split.
Qed.

Lemma discover_frame limit : Frame discover_rel (discover_and_save_products env limit).
Proof.
  unfold discover_and_save_products.
  repeat frame_step discover_rel; apply save_products_frame.
Qed.

Lemma discover_noraise limit : NoRaise (discover_and_save_products env limit).
Proof. unfold discover_and_save_products; auto with pipeline. Qed.

Lemma save_products_length items saved s a :
  fst (save_products env items saved s) = Ok a ->
  (length a <= length saved + length items)%nat.
Proof.
  revert saved s; induction items as [|data rest IH]; intros saved s H; simpl in H.
  - inversion H; subst; simpl; lia.
  - unfold bind at 1 in H.
    destruct (try_except _ _ s) as [[saved' | e] s'] eqn:E; [| discriminate].
    apply IH in H.
    assert (Hl : (length saved' <= S (length saved))%nat).
    { unfold try_except, bind, get, lift, ret in E.
      destruct (find _ _).
      - inversion E; subst; rewrite length_app; simpl; lia.
      - destruct (env_create_product env data); simpl in E; inversion E; subst;
          try (rewrite length_app; simpl); lia. }
    simpl; lia.
Qed.

Lemma create_content_noraise product : NoRaise (create_content_for_product env product).
Proof. unfold create_content_for_product; auto with pipeline. Qed.

Lemma create_content_frame product : Frame eq (create_content_for_product env product).
Proof.
  unfold create_content_for_product.
  repeat frame_step (@eq St).
Qed.

Lemma save_publication_records_frame content_item results acc :
  Frame eq (save_publication_records env content_item results acc).
Proof.
  revert acc; induction results as [|result rest IH]; intros acc; simpl.
  - frame_step (@eq St).
  - frame_step (@eq St); [| apply IH].
    repeat frame_step (@eq St).
Qed.

Lemma publish_content_noraise content_item platforms :
  NoRaise (publish_content env content_item platforms).
Proof. unfold publish_content; auto with pipeline. Qed.

Lemma publish_content_frame content_item platforms :
  Frame eq (publish_content env content_item platforms).
Proof.
  unfold publish_content.
  repeat frame_step (@eq St); apply save_publication_records_frame.
Qed.

Lemma eq_loop_rel s s' : s = s' -> loop_rel s s'.
Proof. intros ->; reflexivity. Qed.

Lemma generation_loop_noraise products : NoRaise (generation_loop env products).
Proof.
  induction products as [|p rest IH]; simpl; [auto with pipeline|].
  apply noraise_bind; [| intros; exact IH].
  apply noraise_try; intros; apply noraise_modify.
Qed.

Lemma generation_body_noraise p :
  NoRaise (content_item <- create_content_for_product env p ;;
           match content_item with
           | Some c => push_content_item c ;;; modify_results incr_videos_created
           | None => ret tt
           end).
Proof.
  apply noraise_bind; [apply create_content_noraise|].
  intros [c|]; [apply noraise_bind; intros; apply noraise_modify | apply noraise_ret].
Qed.

Lemma generation_loop_frame products : Frame loop_rel (generation_loop env products).
Proof.
  induction products as [|p rest IH]; simpl; [frame_step loop_rel|].
  frame_step loop_rel; [| exact IH].
  apply frame_try_noraise.
  - apply generation_body_noraise.
  - frame_step loop_rel.
    + eapply frame_weaken; [apply eq_loop_rel | apply create_content_frame].
    + repeat frame_step loop_rel; repeat split.
Qed.

Lemma publishing_loop_noraise items platforms : NoRaise (publishing_loop env items platforms).
Proof.
  induction items as [|c rest IH]; simpl; [auto with pipeline|].
  apply noraise_bind; [| intros; exact IH].
  apply noraise_try; intros; apply noraise_modify.
Qed.

Lemma publishing_loop_frame items platforms :
  Frame loop_rel (publishing_loop env items platforms).
Proof.
  induction items as [|c rest IH]; simpl; [frame_step loop_rel|].
  frame_step loop_rel; [| exact IH].
  apply frame_try_noraise.
  - apply noraise_bind; [apply publish_content_noraise|].
    intros; apply noraise_bind; intros; apply noraise_modify.
  - frame_step loop_rel.
    + eapply frame_weaken; [apply eq_loop_rel | apply publish_content_frame].
    + repeat frame_step loop_rel; repeat split.
Qed.

End Steps.

(** ** Shape of a run *)

Section Runs.
Variable env : Env.

Lemma pipeline_body_noraise target_platforms product_limit :
  NoRaise (pipeline_body env target_platforms product_limit).
Proof.
  unfold pipeline_body.
  apply noraise_bind; [apply discover_noraise|]; intros products.
  apply noraise_bind; [apply noraise_modify|]; intros _.
  destruct products as [|p ps].
  - apply noraise_bind; intros; apply noraise_modify.
  - apply noraise_bind; [apply generation_loop_noraise|]; intros _.
    apply noraise_bind; [apply noraise_get|]; intros s.
    apply noraise_bind; [apply publishing_loop_noraise|]; intros _.
    apply noraise_bind; [apply noraise_get|]; intros s'.
    apply noraise_bind; intros; apply noraise_modify.
Qed.

(** Every run either stops after an empty discovery or goes through the
    four steps; the outer [except] is never entered. *)
Lemma execute_shape target_platforms product_limit db :
  let s := execute_full_content_pipeline env target_platforms product_limit db in
  exists products s1,
    discover_and_save_products env product_limit (initial_state db) = (Ok products, s1) /\
    ((products = [] /\
      st_results s = add_error "No trending products found"
                       (set_status Failed (set_products_discovered 0 initial_results)) /\
      st_content_items s = [] /\ st_publications s = []) \/
     (products <> [] /\
      exists r,
        st_results s =
          set_status Completed
            (update_metrics (calculate_pipeline_metrics (st_publications s)) r) /\
        status r = Started /\ products_discovered r = length products /\ errors r = [])).
Proof.
  intros s; unfold s, execute_full_content_pipeline; clear s.
  rewrite try_noraise_eq by apply pipeline_body_noraise.
  fold (initial_state db).
  pose proof (discover_frame env product_limit (initial_state db)) as Hfr.
  destruct (discover_noraise env product_limit (initial_state db)) as [products Hok].
  destruct (discover_and_save_products env product_limit (initial_state db)) as [o s1] eqn:Hd.
  simpl in Hok, Hfr; subst o.
  unfold pipeline_body; rewrite (bind_ok _ _ _ _ _ Hd); cbv beta.
  destruct Hfr as (Hr1 & Hc1 & Hp1).
  exists products, s1; split; [reflexivity|].
  destruct products as [|p ps].
  - left; split; [reflexivity|].
    simpl; rewrite Hr1, Hc1, Hp1; repeat split.
  - right; split; [discriminate|].
    rewrite bind_modify_results; cbv beta iota.
    set (s2 := mkSt _ _ _ _).
    pose proof (generation_loop_frame env (p :: ps) s2) as Hg.
    destruct (generation_loop_noraise env (p :: ps) s2) as [[] Hgo].
    destruct (generation_loop env (p :: ps) s2) as [o3 s3] eqn:E3.
    simpl in Hgo, Hg; subst o3.
    rewrite (bind_ok _ _ _ _ _ E3), bind_get.
    pose proof (publishing_loop_frame env (st_content_items s3) target_platforms s3) as Hq.
    destruct (publishing_loop_noraise env (st_content_items s3) target_platforms s3)
      as [[] Hqo].
    destruct (publishing_loop env (st_content_items s3) target_platforms s3) as [o4 s4] eqn:E4.
    simpl in Hqo, Hq; subst o4.
    rewrite (bind_ok _ _ _ _ _ E4), bind_get, bind_modify_results.
    exists (st_results s4); simpl.
    destruct Hg as (Hg1 & Hg2 & Hg3), Hq as (Hq1 & Hq2 & Hq3).
    unfold s2 in *; simpl in *.
    rewrite Hr1 in *; simpl in *.
    repeat split; congruence.
Qed.

End Runs.

(** ** Values of the steps *)

#[export] Instance pubs_ok_rel_preorder : PreOrder pubs_ok_rel.
Proof. split; [intros s H; exact H | intros s1 s2 s3 H1 H2 H; auto]. Qed.

Section Values.
Variable env : Env.

Lemma save_publication_records_value c results acc s a :
  fst (save_publication_records env c results acc s) = Ok a ->
  Forall rec_reach_ok acc -> Forall rec_reach_ok a.
Proof.
  revert acc s; induction results as [|res rest IH]; intros acc s Ha Hacc; simpl in Ha.
  - inversion Ha; subst; exact Hacc.
  - unfold bind at 1 in Ha.
    destruct (try_except _ _ s) as [[acc' | e] s'] eqn:E; [| discriminate].
    apply (IH acc' s' Ha).
    unfold try_except, bind, lift, ret in E.
    destruct (env_create_post env _); inversion E; subst; [| exact Hacc].
    apply Forall_app; split; [exact Hacc | constructor; [reflexivity | constructor]].
Qed.

Lemma publish_content_value c platforms s a :
  fst (publish_content env c platforms s) = Ok a -> Forall rec_reach_ok a.
Proof.
  unfold publish_content, try_except.
  destruct (save_publication_records env c _ [] s) as [[a'|e] s'] eqn:E; simpl; intros H.
  - inversion H; subst.
    eapply save_publication_records_value; [rewrite E; reflexivity | constructor].
  - inversion H; subst; constructor.
Qed.

Lemma publishing_loop_pubs_ok items platforms :
  Frame pubs_ok_rel (publishing_loop env items platforms).
Proof.
  induction items as [|c rest IH]; simpl; [frame_step pubs_ok_rel|].
  frame_step pubs_ok_rel; [| exact IH].
  apply frame_try_noraise.
  - apply noraise_bind; [apply publish_content_noraise|].
    intros; apply noraise_bind; intros; apply noraise_modify.
  - intros s; unfold bind.
    pose proof (publish_content_frame env c platforms s) as Hs.
    pose proof (publish_content_value c platforms s) as Hv.
    destruct (publish_content env c platforms s) as [[a|e] s'] eqn:E; simpl in *; subst s'.
    + intros Hok; simpl; apply Forall_app; split; [exact Hok | apply Hv; reflexivity].
    + intros Hok; exact Hok.
Qed.

Lemma generation_loop_pubs_ok products : Frame pubs_ok_rel (generation_loop env products).
Proof.
  induction products as [|p rest IH]; simpl; [frame_step pubs_ok_rel|].
  frame_step pubs_ok_rel; [| exact IH].
  apply frame_try_noraise; [apply generation_body_noraise|].
  frame_step pubs_ok_rel.
  - eapply frame_weaken; [| apply create_content_frame]; intros s s' ->; reflexivity.
  - repeat frame_step pubs_ok_rel; intros H; exact H.
Qed.

Lemma pipeline_body_pubs_ok target_platforms product_limit :
  Frame pubs_ok_rel (pipeline_body env target_platforms product_limit).
Proof.
  unfold pipeline_body.
  frame_step pubs_ok_rel.
  - eapply frame_weaken; [| apply discover_frame].
    intros s s' (_ & _ & Hp) H; rewrite Hp; exact H.
  - repeat frame_step pubs_ok_rel;
      first [ apply generation_loop_pubs_ok | apply publishing_loop_pubs_ok
            | intros H; exact H ].
Qed.

Lemma execute_pubs_ok target_platforms product_limit db :
  Forall rec_reach_ok
    (st_publications (execute_full_content_pipeline env target_platforms product_limit db)).
Proof.
  unfold execute_full_content_pipeline.
  rewrite try_noraise_eq by apply pipeline_body_noraise.
  apply pipeline_body_pubs_ok; constructor.
Qed.

Lemma discover_length limit s products :
  (0 <= limit)%Z ->
  fst (discover_and_save_products env limit s) = Ok products ->
  (length products <= Z.to_nat limit)%nat.
Proof.
  intros Hl; unfold discover_and_save_products, try_except, bind, lift.
  destruct (env_discover_api env) as [data | e]; simpl.
  - destruct (save_products env (py_slice_upto data limit) [] s) as [[a|e] s'] eqn:E;
      simpl; intros H; inversion H; subst; [| simpl; lia].
    pose proof (save_products_length env (py_slice_upto data limit) [] s products) as Hlen.
    rewrite E in Hlen; specialize (Hlen eq_refl).
    unfold py_slice_upto in Hlen; simpl in Hlen.
    destruct (Z.leb_spec 0 limit); [| lia].
    rewrite length_firstn in Hlen; lia.
  - intros H; inversion H; subst; simpl; lia.
Qed.

End Values.

(** ** [round(x, 2)] and the success rate *)

Lemma py_round2_bounds x : 0 <= x <= 100 -> 0 <= py_round2 x <= 100.
Proof.
  intros [H0 H100].
  assert (Hy0 : 0 <= x * 100) by (apply Qmult_le_0_compat; [exact H0 | unfold Qle; simpl; lia]).
  assert (Hy1 : x * 100 <= 10000).
  { apply (Qle_trans _ (100 * 100)); [| unfold Qle; simpl; lia].
    apply Qmult_le_compat_r; [exact H100 | unfold Qle; simpl; lia]. }
  unfold py_round2; revert Hy0 Hy1; generalize (x * 100); intros [n d] Hn0 Hn1.
  cbv zeta; unfold Qle in *; cbn [Qnum Qden] in *.
  pose proof (Z.div_mod n (Z.pos d) ltac:(lia)) as Hdm.
  pose proof (Z.mod_pos_bound n (Z.pos d) ltac:(lia)) as Hr.
  set (q := (n / Z.pos d)%Z) in *; set (r := (n mod Z.pos d)%Z) in *.
  assert (Hq0 : (0 <= q)%Z) by nia.
  assert (Hq1 : (q <= 10000)%Z) by nia.
  destruct (Z.ltb_spec (2 * r) (Z.pos d)).
  - split; cbn [Qnum Qden]; lia.
  - assert (Hq2 : (q < 10000)%Z) by nia.
    destruct (Z.ltb_spec (Z.pos d) (2 * r)); [| destruct (Z.even q)];
      split; cbn [Qnum Qden]; lia.
Qed.

Lemma rate_bounds (p t : nat) :
  (p <= t)%nat -> (0 < t)%nat ->
  0 <= inject_Z (Z.of_nat p) / inject_Z (Z.of_nat t) * 100 <= 100.
Proof.
  intros Hpt Ht; destruct t as [|t']; [lia|].
  rewrite Nat2Z.inj_succ, <- Zpos_P_of_succ_nat.
  unfold Qle, Qdiv, Qmult, Qinv, inject_Z; cbn [Qnum Qden].
  rewrite ?Pos2Z.inj_mul, Zpos_P_of_succ_nat; split; nia.
Qed.

(** ** Claims *)

Lemma publish_to_multiple_platforms_platforms env video_url title description :
  map pr_platform (publish_to_multiple_platforms env video_url title description) =
  [Some "tiktok"; Some "instagram"; Some "youtube"].
Proof.
  unfold publish_to_multiple_platforms, publish_to_tiktok, publish_to_instagram,
    publish_to_youtube.
  repeat match goal with |- context [match ?x with _ => _ end] => destruct x end;
    reflexivity.
Qed.

(** C1 (code bug): when discovery yields an empty product list, the run
    ends FAILED (with zero counters, success rate 0 and the single error
    string "No trending products found"), not COMPLETED. *)
Theorem empty_discovery_fails env target_platforms product_limit db :
  fst (discover_and_save_products env product_limit (initial_state db)) = Ok [] ->
  let r := st_results
             (execute_full_content_pipeline env target_platforms product_limit db) in
  status r = Failed /\ products_discovered r = 0%nat /\ videos_created r = 0%nat /\
  posts_published r = 0%nat /\ success_rate r = 0 /\
  errors r = ["No trending products found"].
Proof.
  intros H r; unfold r; clear r.
  destruct (execute_shape env target_platforms product_limit db)
    as (products & s1 & Hd & [(-> & Hr & _) | (Hne & _)]).
  - rewrite Hr; repeat split.
  - rewrite Hd in H; simpl in H; inversion H; subst; congruence.
Qed.

Lemma empty_discovery_fails_witness :
  fst (discover_and_save_products (env_all_ok []) 5 (initial_state [])) = Ok [] /\
  (let r := st_results (execute_full_content_pipeline (env_all_ok []) default_platforms 5 []) in
   status r = Failed /\ products_discovered r = 0%nat /\ videos_created r = 0%nat /\
   posts_published r = 0%nat /\ success_rate r = 0 /\
   errors r = ["No trending products found"]).
Proof.
  split; [reflexivity|].
  apply (empty_discovery_fails (env_all_ok []) default_platforms 5 []); reflexivity.
Defined.

(** C2 (code bug): the fan-out always publishes to TikTok, Instagram and
    YouTube, whatever [target_platforms] is; three products published to
    ["tiktok"; "instagram"] give 9 posts, and YouTube is reached. *)
Theorem fanout_ignores_target_platforms :
  (forall env video_url title description,
     map pr_platform (publish_to_multiple_platforms env video_url title description) =
     [Some "tiktok"; Some "instagram"; Some "youtube"]) /\
  (let r := st_results (execute_full_content_pipeline (env_all_ok three_products)
                          ["tiktok"; "instagram"] 5 []) in
   products_discovered r = 3%nat /\ videos_created r = 3%nat /\ posts_published r = 9%nat /\
   In (Some "youtube") (platforms_reached r)).
Proof.
  split; [apply publish_to_multiple_platforms_platforms|].
  vm_compute; repeat split; auto.
Qed.

(** C3 (counterexample): with TikTok published and Instagram and YouTube
    failed, [total_potential_reach] is 18000, not the 10000 of the
    published results alone. *)
Lemma reach_counts_failed_results :
  let s := execute_full_content_pipeline env_partial default_platforms 5 [] in
  total_potential_reach (st_results s) = 18000%Z /\
  total_potential_reach (st_results s) <>
  fold_right Z.add 0%Z
    (map (fun r => estimate_platform_reach (get_default (rec_platform r) "unknown"))
       (filter is_published (st_publications s))).
Proof. vm_compute; split; [reflexivity | discriminate]. Qed.

(** C3 (amended): [total_potential_reach] is the sum of the reach table
    over all publication results of the run, published and failed alike
    (a result without a platform counts as ["unknown"]). *)
Theorem total_reach_over_all_results env target_platforms product_limit db :
  let s := execute_full_content_pipeline env target_platforms product_limit db in
  total_potential_reach (st_results s) =
  fold_right Z.add 0%Z
    (map (fun r => estimate_platform_reach (get_default (rec_platform r) "unknown"))
       (st_publications s)).
Proof.
  intros s; unfold s; clear s.
  pose proof (execute_pubs_ok env target_platforms product_limit db) as Hok.
  destruct (execute_shape env target_platforms product_limit db)
    as (products & s1 & Hd & [(_ & Hr & _ & Hp) | (_ & r & Hr & _)]).
  - rewrite Hr, Hp; reflexivity.
  - rewrite Hr; simpl; f_equal.
    apply map_ext_in; intros x Hx.
    rewrite Forall_forall in Hok; apply Hok, Hx.
Qed.

(** C4 (code bug): when script generation raises for the only product,
    the run publishes nothing for it but appends no error string. *)
Theorem generation_failure_leaves_no_error :
  let s := execute_full_content_pipeline env_script_raises default_platforms 5 [] in
  status (st_results s) = Completed /\ products_discovered (st_results s) = 1%nat /\
  videos_created (st_results s) = 0%nat /\ st_publications s = [] /\
  errors (st_results s) = [].
Proof. vm_compute; repeat split. Qed.

(** C5: no exception leaves the fan-out: each platform publisher returns a
    result (one per platform, in the order of the tasks), an attempt that
    raises becomes a [failed] result carrying that exception's string
    (for Instagram also the [ValueError] raised when the page id is not
    set), and each result depends only on its own platform's attempt. *)
Theorem fanout_isolates_failures :
  (forall env video_url title description,
     exists t i y,
       publish_to_tiktok env video_url description = Ok t /\
       publish_to_instagram env video_url description = Ok i /\
       publish_to_youtube env video_url title description = Ok y /\
       publish_to_multiple_platforms env video_url title description = [t; i; y]) /\
  (forall env video_url caption e,
     env_tiktok env video_url caption = Raise e ->
     publish_to_tiktok env video_url caption = Ok (failed_result "tiktok" e)) /\
  (forall env video_url caption e,
     env_instagram_page_id env <> "" ->
     env_instagram env video_url caption = Raise e ->
     publish_to_instagram env video_url caption = Ok (failed_result "instagram" e)) /\
  (forall env video_url caption,
     env_instagram_page_id env = "" ->
     publish_to_instagram env video_url caption =
     Ok (mkPubResult (Some "instagram") "failed" None None
           (Some "INSTAGRAM_PAGE_ID is not set in environment variables"))) /\
  (forall env video_url title description e,
     env_youtube env video_url title description = Raise e ->
     publish_to_youtube env video_url title description = Ok (failed_result "youtube" e)) /\
  (forall platform e,
     pr_status (failed_result platform e) = "failed" /\
     pr_error (failed_result platform e) =
       Some (if exn_is_http e then "HTTP error: " ++ exn_msg e else exn_msg e)) /\
  (forall env env' video_url title description,
     env_tiktok env video_url description = env_tiktok env' video_url description ->
     nth_error (publish_to_multiple_platforms env video_url title description) 0 =
     nth_error (publish_to_multiple_platforms env' video_url title description) 0) /\
  (forall env env' video_url title description,
     env_instagram_page_id env = env_instagram_page_id env' ->
     env_instagram env video_url description = env_instagram env' video_url description ->
     nth_error (publish_to_multiple_platforms env video_url title description) 1 =
     nth_error (publish_to_multiple_platforms env' video_url title description) 1) /\
  (forall env env' video_url title description,
     env_youtube env video_url title description =
     env_youtube env' video_url title description ->
     nth_error (publish_to_multiple_platforms env video_url title description) 2 =
     nth_error (publish_to_multiple_platforms env' video_url title description) 2).
Proof.
  unfold publish_to_multiple_platforms, publish_to_tiktok, publish_to_instagram,
    publish_to_youtube.
  split; [| split; [| split; [| split; [| split; [| split; [| split; [| split]]]]]]].
  - intros env video_url title description.
    repeat match goal with |- context [match ?x with _ => _ end] => destruct x end;
      eexists _, _, _; repeat split.
  - intros env video_url caption e H; rewrite H; reflexivity.
  - intros env video_url caption e Hp H; rewrite H.
    destruct (String.eqb_spec (env_instagram_page_id env) ""); [contradiction | reflexivity].
  - intros env video_url caption Hp; rewrite Hp; reflexivity.
  - intros env video_url title description e H; rewrite H; reflexivity.
  - intros platform e; split; reflexivity.
  - intros env env' video_url title description H; simpl; rewrite H; reflexivity.
  - intros env env' video_url title description H1 H2; simpl; rewrite H1, H2; reflexivity.
  - intros env env' video_url title description H; simpl; rewrite H; reflexivity.
Qed.

Lemma completed_run_errors_empty env target_platforms product_limit db :
  let r := st_results (execute_full_content_pipeline env target_platforms product_limit db) in
  status r = Completed -> errors r = [].
Proof.
  intros r; unfold r; clear r.
  destruct (execute_shape env target_platforms product_limit db)
    as (products & s1 & Hd & [(_ & Hr & _) | (_ & r & Hr & _ & _ & He)]);
    rewrite Hr; simpl; [discriminate | intros _; exact He].
Qed.

(** C6 (code bug): an exception inside step 2 or step 3 is absorbed by the
    item's helper, so no error string ever reaches [errors]: a completed
    run always has an empty [errors] list, also when script generation
    or [create_post] raises. *)
Theorem item_exceptions_leave_no_error :
  (forall env target_platforms product_limit db,
     let r := st_results
                (execute_full_content_pipeline env target_platforms product_limit db) in
     status r = Completed -> errors r = []) /\
  (let r := st_results (execute_full_content_pipeline env_script_raises default_platforms 5 []) in
   status r = Completed /\ videos_created r = 0%nat /\ errors r = []) /\
  (let r := st_results (execute_full_content_pipeline env_post_raises default_platforms 5 []) in
   status r = Completed /\ videos_created r = 1%nat /\ posts_published r = 0%nat /\
   errors r = []).
Proof.
  split; [apply completed_run_errors_empty|].
  vm_compute; repeat split.
Qed.

(** C7 (counterexample): one published result out of three gives a
    success rate of 33.33, not 100/3. *)
Lemma success_rate_is_rounded :
  let s := execute_full_content_pipeline env_partial default_platforms 5 [] in
  success_rate (st_results s) == 3333 # 100 /\
  ~ (success_rate (st_results s) ==
     inject_Z (Z.of_nat (length (filter is_published (st_publications s)))) /
     inject_Z (Z.of_nat (length (st_publications s))) * 100).
Proof. vm_compute; split; [reflexivity | discriminate]. Qed.

(** C7 (amended): the success rate lies in [0, 100]; it is
    [100 * published / attempted] rounded to two decimals when at least
    one publication was attempted, and 0 otherwise. *)
Theorem success_rate_bounded_rounded env target_platforms product_limit db :
  let s := execute_full_content_pipeline env target_platforms product_limit db in
  let published := length (filter is_published (st_publications s)) in
  let attempted := length (st_publications s) in
  0 <= success_rate (st_results s) <= 100 /\
  ((0 < attempted)%nat ->
   success_rate (st_results s) ==
   py_round2 (inject_Z (Z.of_nat published) / inject_Z (Z.of_nat attempted) * 100)) /\
  (attempted = 0%nat -> success_rate (st_results s) == 0).
Proof.
  intros s published attempted; unfold published, attempted, s; clear s published attempted.
  destruct (execute_shape env target_platforms product_limit db)
    as (products & s1 & Hd & [(_ & Hr & _ & Hp) | (_ & r & Hr & _)]).
  - rewrite Hr, Hp; simpl.
    split; [split; unfold Qle; simpl; lia|].
    split; [intros H; inversion H | intros _; reflexivity].
  - rewrite Hr; simpl.
    set (l := st_publications _).
    assert (Hle : (length (filter is_published l) <= length l)%nat)
      by apply filter_length_le.
    destruct (Nat.ltb_spec 0 (length l)) as [Hlt | Hge].
    + split; [apply py_round2_bounds, rate_bounds; assumption|].
      split; [intros _; reflexivity | intros H; lia].
    + split; [apply py_round2_bounds; split; unfold Qle; simpl; lia|].
      split; [intros H; lia | intros _; reflexivity].
Qed.

(** C8: [platforms_reached] holds each platform of a [published] result
    of the run exactly once, and nothing else. *)
Theorem platforms_reached_exact env target_platforms product_limit db :
  let s := execute_full_content_pipeline env target_platforms product_limit db in
  NoDup (platforms_reached (st_results s)) /\
  (forall p, In p (platforms_reached (st_results s)) <->
             exists r, In r (st_publications s) /\ is_published r = true /\
                       rec_platform r = p).
Proof.
  intros s; unfold s; clear s.
  destruct (execute_shape env target_platforms product_limit db)
    as (products & s1 & Hd & [(_ & Hr & _ & Hp) | (_ & r & Hr & _)]).
  - rewrite Hr, Hp; simpl; split; [constructor|].
    intros p; split; [intros [] | intros (x & [] & _)].
  - rewrite Hr; simpl; split; [apply NoDup_nodup|].
    intros p; rewrite nodup_In, in_map_iff; split.
    + intros (x & Hx & Hin); apply filter_In in Hin; exists x; tauto.
    + intros (x & Hin & Hpub & Hx); exists x; rewrite filter_In; tauto.
Qed.

(** C9: the returned dictionary never keeps the initial status ["started"];
    every run ends [completed] or [failed]. *)
Theorem run_status_final env target_platforms product_limit db :
  let r := st_results (execute_full_content_pipeline env target_platforms product_limit db) in
  status r = Completed \/ status r = Failed.
Proof.
  intros r; unfold r; clear r.
  destruct (execute_shape env target_platforms product_limit db)
    as (products & s1 & Hd & [(_ & Hr & _) | (_ & r & Hr & _)]);
    rewrite Hr; simpl; auto.
Qed.

(** C10: with [product_limit >= 0], discovery keeps at most
    [product_limit] products, and [products_discovered] is at most
    [product_limit]. *)
Theorem products_discovered_bounded env target_platforms product_limit db :
  (0 <= product_limit)%Z ->
  (forall products s1,
     discover_and_save_products env product_limit (initial_state db) = (Ok products, s1) ->
     (length products <= Z.to_nat product_limit)%nat) /\
  (products_discovered
     (st_results (execute_full_content_pipeline env target_platforms product_limit db))
   <= Z.to_nat product_limit)%nat.
Proof.
  intros Hl.
  assert (Hb : forall products s1,
             discover_and_save_products env product_limit (initial_state db) =
             (Ok products, s1) ->
             (length products <= Z.to_nat product_limit)%nat).
  { intros products s1 Hd.
    apply (discover_length env product_limit (initial_state db)); [exact Hl|].
    rewrite Hd; reflexivity. }
  split; [exact Hb|].
  destruct (execute_shape env target_platforms product_limit db)
    as (products & s1 & Hd & [(_ & Hr & _) | (_ & r & Hr & _ & Hpd & _)]);
    rewrite Hr; simpl; [lia|].
  rewrite Hpd; apply (Hb _ _ Hd).
Qed.

Lemma products_discovered_bounded_witness :
  (0 <= 2)%Z /\
  (forall products s1,
     discover_and_save_products (env_all_ok three_products) 2 (initial_state []) =
     (Ok products, s1) ->
     (length products <= Z.to_nat 2)%nat) /\
  (products_discovered
     (st_results (execute_full_content_pipeline (env_all_ok three_products)
                    default_platforms 2 []))
   <= Z.to_nat 2)%nat.
Proof.
  split; [lia|].
  apply (products_discovered_bounded (env_all_ok three_products) default_platforms 2 []).
  lia.
Defined.

(** ** Further properties of the code *)

(** *** Product discovery *)

Lemma trending_loop_firstn products_data trending_products :
  (length trending_products < 10)%nat ->
  trending_loop products_data trending_products =
  (trending_products ++
   map to_trending_product (firstn (10 - length trending_products) products_data))%list.
Proof.
  revert trending_products.
  induction products_data as [|p rest IH]; intros acc Hlt; cbn [trending_loop].
  - rewrite firstn_nil; cbn [map]; rewrite app_nil_r; reflexivity.
  - rewrite length_app; cbn [length].
    replace (10 - length acc)%nat with (S (10 - (length acc + 1)))%nat by lia.
    cbn [firstn map].
    destruct (Nat.leb_spec 10 (length acc + 1)) as [Hge | Hlt'].
    + replace (10 - (length acc + 1))%nat with 0%nat by lia; reflexivity.
    + rewrite IH by (rewrite length_app; cbn [length]; lia).
      rewrite length_app; cbn [length].
      rewrite <- app_assoc; reflexivity.
Qed.

(** [discover_trending_products_from_api] keeps the first ten products of
    the response, in order, each converted to a [trending_product]
    dictionary, and returns [[]] when the request or the decoding raises. *)
Theorem discover_api_first_ten :
  (forall products_data,
     discover_trending_products_from_api (Ok products_data) =
     map to_trending_product (firstn 10 products_data)) /\
  (forall e, discover_trending_products_from_api (Raise e) = []).
Proof.
  split; [| reflexivity].
  intros products_data; unfold discover_trending_products_from_api.
  rewrite trending_loop_firstn by (simpl; lia); reflexivity.
Qed.

Lemma discover_api_length response :
  (length (discover_trending_products_from_api response) <= 10)%nat.
Proof.
  destruct response as [products_data | e]; [| simpl; lia].
  destruct discover_api_first_ten as [H _]; rewrite H, length_map, length_firstn; lia.
Qed.

Lemma py_slice_upto_length {A} (l : list A) n : (length (py_slice_upto l n) <= length l)%nat.
Proof. unfold py_slice_upto; destruct (0 <=? n)%Z; rewrite length_firstn; lia. Qed.

Lemma discover_length_data env limit s products data :
  env_discover_api env = Ok data ->
  fst (discover_and_save_products env limit s) = Ok products ->
  (length products <= length data)%nat.
Proof.
  intros Hapi; unfold discover_and_save_products, try_except, bind, lift; rewrite Hapi.
  pose proof (save_products_length env (py_slice_upto data limit) [] s) as Hlen.
  pose proof (py_slice_upto_length data limit) as Hsl.
  destruct (save_products env (py_slice_upto data limit) [] s) as [[a|e] s'];
    simpl in *; intros H; inversion H; subst; [| simpl; lia].
  specialize (Hlen products eq_refl); lia.
Qed.

(** With the repository's discovery function as the product source, a
    pipeline run reports at most ten discovered products, whatever
    [product_limit] is (larger than ten or negative included). *)
Theorem pipeline_discovers_at_most_ten env response target_platforms product_limit db :
  env_discover_api env =
    Ok (map trending_product_data (discover_trending_products_from_api response)) ->
  (products_discovered
     (st_results (execute_full_content_pipeline env target_platforms product_limit db))
   <= 10)%nat.
Proof.
  intros Hapi.
  destruct (execute_shape env target_platforms product_limit db)
    as (products & s1 & Hd & [(_ & Hr & _) | (_ & r & Hr & _ & Hpd & _)]);
    rewrite Hr; simpl; [lia|].
  rewrite Hpd.
  pose proof (discover_length_data env product_limit (initial_state db) products _ Hapi)
    as Hl.
  rewrite Hd in Hl; specialize (Hl eq_refl).
  rewrite length_map in Hl; pose proof (discover_api_length response); lia.
Qed.

Lemma pipeline_discovers_at_most_ten_witness :
  env_discover_api env_fakestore =
    Ok (map trending_product_data
          (discover_trending_products_from_api (Ok twelve_raw_products))) /\
  (products_discovered
     (st_results (execute_full_content_pipeline env_fakestore default_platforms 50 []))
   <= 10)%nat.
Proof.
  split; [reflexivity|].
  apply (pipeline_discovers_at_most_ten env_fakestore (Ok twelve_raw_products)); reflexivity.
Defined.

(** *** Script generation *)

Lemma py_rstrip_app s1 s2 :
  py_rstrip s2 <> "" -> py_rstrip (s1 ++ s2) = s1 ++ py_rstrip s2.
Proof.
  intros H; induction s1 as [|c s1 IH]; [reflexivity|].
  cbn [append py_rstrip]; rewrite IH.
  destruct (is_py_space c); [| reflexivity].
  destruct (String.eqb_spec (s1 ++ py_rstrip s2) "") as [E|E]; [| reflexivity].
  destruct s1; simpl in E; [contradiction | discriminate].
Qed.

Lemma py_rstrip_nonspace c s : is_py_space c = false -> py_rstrip (String c s) <> "".
Proof. intros H; cbn [py_rstrip]; rewrite H; discriminate. Qed.

Lemma py_lstrip_opening s :
  py_lstrip (nl ++ "    [Opening Scene]" ++ s) = "[Opening Scene]" ++ s.
Proof. reflexivity. Qed.

Lemma py_rstrip_hey t :
  py_rstrip (nl ++ "    Hey everyone! Today I'm excited to show you " ++ t) <> "".
Proof.
  change (nl ++ "    Hey everyone! Today I'm excited to show you " ++ t) with
    ((nl ++ "    ") ++ String "H" ("ey everyone! Today I'm excited to show you " ++ t)).
  rewrite py_rstrip_app by (apply py_rstrip_nonspace; reflexivity).
  discriminate.
Qed.

Lemma generate_video_script_shape table product_id :
  (get_product_by_id table product_id = None ->
   generate_video_script table product_id = "Product not found") /\
  (forall product, get_product_by_id table product_id = Some product ->
   exists rest, generate_video_script table product_id = "[Opening Scene]" ++ rest).
Proof.
  unfold generate_video_script; split; [intros ->; reflexivity|].
  intros product ->; unfold py_strip, script_template.
  rewrite py_lstrip_opening, py_rstrip_app by apply py_rstrip_hey.
  eexists; reflexivity.
Qed.

(** [generate_video_script] returns ["Product not found"] exactly when the
    product row is missing (or the query raised); for an existing product
    the stripped template starts with ["[Opening Scene]"], so it is never
    empty and never ["Product not found"]. *)
Theorem generate_video_script_result table product_id :
  (get_product_by_id table product_id = None ->
   generate_video_script table product_id = "Product not found") /\
  (forall product, get_product_by_id table product_id = Some product ->
   (exists rest, generate_video_script table product_id = "[Opening Scene]" ++ rest) /\
   generate_video_script table product_id <> "" /\
   generate_video_script table product_id <> "Product not found").
Proof.
  destruct (generate_video_script_shape table product_id) as [Hn Hs].
  split; [exact Hn|].
  intros product Hp; destruct (Hs product Hp) as [rest Hr].
  rewrite Hr; split; [exists rest; reflexivity | split; discriminate].
Qed.



(** *** The [Video] table *)

Lemma get_video_replace_same db video_id v' :
  vr_id v' = video_id -> get_video_by_id db video_id <> None ->
  get_video_by_id (replace_video db video_id v') video_id = Some v'.
Proof.
  intros Hid; induction db as [|v rest IH]; [intros H; contradiction|].
  unfold get_video_by_id; cbn [replace_video find].
  destruct (Z.eqb (vr_id v) video_id) eqn:Ev.
  - intros _; cbn [find]; rewrite Hid, Z.eqb_refl; reflexivity.
  - intros H; cbn [find]; rewrite Ev; apply IH, H.
Qed.

Lemma get_video_replace_other db video_id v' id' :
  vr_id v' = video_id -> id' <> video_id ->
  get_video_by_id (replace_video db video_id v') id' = get_video_by_id db id'.
Proof.
  intros Hid Hne; induction db as [|v rest IH]; [reflexivity|].
  unfold get_video_by_id in *; cbn [replace_video find].
  destruct (Z.eqb_spec (vr_id v) video_id) as [Ev|Ev]; cbn [find].
  - rewrite Hid, Ev; destruct (Z.eqb_spec video_id id'); [congruence | reflexivity].
  - rewrite IH; reflexivity.
Qed.

Lemma get_video_remove_other db video_id id' :
  id' <> video_id ->
  get_video_by_id (remove_video db video_id) id' = get_video_by_id db id'.
Proof.
  intros Hne; induction db as [|v rest IH]; [reflexivity|].
  unfold get_video_by_id in *; cbn [remove_video find].
  destruct (Z.eqb_spec (vr_id v) video_id) as [Ev|Ev]; cbn [find].
  - rewrite Ev; destruct (Z.eqb_spec video_id id'); [congruence | reflexivity].
  - rewrite IH; reflexivity.
Qed.

Lemma get_video_absent db video_id :
  ~ In video_id (map vr_id db) -> get_video_by_id db video_id = None.
Proof.
  induction db as [|v rest IH]; intros H; [reflexivity|].
  unfold get_video_by_id in *; cbn [find].
  destruct (Z.eqb_spec (vr_id v) video_id) as [Ev|Ev].
  - exfalso; apply H; left; exact Ev.
  - apply IH; intros Hin; apply H; right; exact Hin.
Qed.

Lemma get_video_remove_same db video_id :
  NoDup (map vr_id db) -> get_video_by_id (remove_video db video_id) video_id = None.
Proof.
  induction db as [|v rest IH]; intros Hnd; [reflexivity|].
  inversion Hnd as [|x l Hnin Hnd' [Hx Hl]]; subst.
  cbn [remove_video]; destruct (Z.eqb_spec (vr_id v) video_id) as [Ev|Ev].
  - apply get_video_absent; rewrite <- Ev; exact Hnin.
  - unfold get_video_by_id in *; cbn [find].
    destruct (Z.eqb_spec (vr_id v) video_id); [contradiction | apply IH, Hnd'].
Qed.

(** [update_video] on a missing id returns [None] and leaves the table
    unchanged.  On an existing id whose commit succeeds it returns the row
    with every field that was set in the update overwritten (a field set to
    [None] included) and the others kept; looking the id up afterwards
    gives that row and the other ids are unaffected.  When the commit
    raises (an integrity error), the exception propagates and the table is
    unchanged. *)
Theorem update_video_lookup db video_id video commit :
  (get_video_by_id db video_id = None ->
   update_video db video_id video commit = (Ok None, db)) /\
  (forall v, get_video_by_id db video_id = Some v ->
   (commit (apply_video_update v video) = Ok tt ->
    fst (update_video db video_id video commit) = Ok (Some (apply_video_update v video)) /\
    get_video_by_id (snd (update_video db video_id video commit)) video_id =
      Some (apply_video_update v video) /\
    (forall id', id' <> video_id ->
       get_video_by_id (snd (update_video db video_id video commit)) id' =
       get_video_by_id db id')) /\
   (forall e, commit (apply_video_update v video) = Raise e ->
    update_video db video_id video commit = (Raise e, db))).
Proof.
  unfold update_video; split; [intros ->; reflexivity|].
  intros v Hv; rewrite Hv.
  assert (Hid : vr_id (apply_video_update v video) = video_id).
  { unfold get_video_by_id in Hv; apply find_some in Hv as [_ Hv].
    apply Z.eqb_eq in Hv; exact Hv. }
  split.
  - intros Hc; rewrite Hc; cbn [fst snd]; split; [reflexivity|]; split.
    + apply get_video_replace_same; [exact Hid | rewrite Hv; discriminate].
    + intros id' Hne; apply get_video_replace_other; assumption.
  - intros e Hc; rewrite Hc; reflexivity.
Qed.

(** [delete_video] returns [True] exactly when the id exists; it leaves the
    other ids' rows in place, and since ids are a primary key the id is no
    longer found afterwards. *)
Theorem delete_video_lookup db video_id :
  NoDup (map vr_id db) ->
  fst (delete_video db video_id) =
    match get_video_by_id db video_id with Some _ => true | None => false end /\
  get_video_by_id (snd (delete_video db video_id)) video_id = None /\
  (forall id', id' <> video_id ->
     get_video_by_id (snd (delete_video db video_id)) id' = get_video_by_id db id').
Proof.
  intros Hnd; unfold delete_video.
  destruct (get_video_by_id db video_id) as [v|] eqn:E; cbn [fst snd].
  - split; [reflexivity|]; split; [apply get_video_remove_same, Hnd|].
    intros id' Hne; apply get_video_remove_other, Hne.
  - split; [reflexivity|]; split; [exact E | reflexivity].
Qed.

Lemma delete_video_lookup_witness :
  NoDup (map vr_id two_videos) /\
  (fst (delete_video two_videos 1) =
     match get_video_by_id two_videos 1 with Some _ => true | None => false end /\
   get_video_by_id (snd (delete_video two_videos 1)) 1 = None /\
   (forall id', id' <> 1%Z ->
      get_video_by_id (snd (delete_video two_videos 1)) id' = get_video_by_id two_videos id')).
Proof.
  assert (Hnd : NoDup (map vr_id two_videos)).
  { cbn; constructor; [intros [H|[]]; discriminate | constructor; [intros [] | constructor]]. }
  split; [exact Hnd | apply (delete_video_lookup two_videos 1 Hnd)].
Defined.

(** *** Counters of a run *)

Section Counters.
Variable env : Env.

Lemma fanout_length video_url title description :
  length (publish_to_multiple_platforms env video_url title description) = 3%nat.
Proof. reflexivity. Qed.

Lemma fanout_result_platform video_url title description res :
  In res (publish_to_multiple_platforms env video_url title description) ->
  fanout_platform (publication_record res).
Proof.
  intros Hin; unfold fanout_platform; cbn [rec_platform publication_record].
  rewrite <- (publish_to_multiple_platforms_platforms env video_url title description).
  apply in_map, Hin.
Qed.

Lemma save_publication_records_added c results acc s a :
  fst (save_publication_records env c results acc s) = Ok a ->
  exists added, a = (acc ++ added)%list /\ (length added <= length results)%nat /\
    (forall r, In r added -> exists res, In res results /\ r = publication_record res).
Proof.
  revert acc s; induction results as [|res rest IH]; intros acc s Ha; simpl in Ha.
  - inversion Ha; subst; exists []; rewrite app_nil_r; split; [reflexivity|].
    split; [simpl; lia | intros r []].
  - unfold bind at 1 in Ha.
    destruct (try_except _ _ s) as [[acc' | e] s'] eqn:E; [| discriminate].
    destruct (IH acc' s' Ha) as (added & -> & Hlen & Hin).
    unfold try_except, bind, lift, ret in E.
    destruct (env_create_post env _); inversion E; subst.
    + exists (publication_record res :: added); split; [rewrite <- app_assoc; reflexivity|].
      split; [simpl; lia|].
      intros r [<- | Hr]; [exists res; split; [left|]; reflexivity|].
      destruct (Hin r Hr) as (res' & Hres' & ->); exists res'; split; [right|]; auto.
    + exists added; split; [reflexivity|]; split; [simpl; lia|].
      intros r Hr; destruct (Hin r Hr) as (res' & Hres' & ->); exists res'; split; [right|]; auto.
Qed.

Lemma publish_content_added c platforms s a :
  fst (publish_content env c platforms s) = Ok a ->
  (length a <= 3)%nat /\ Forall fanout_platform a.
Proof.
  unfold publish_content, try_except.
  pose proof (save_publication_records_added c
                (publish_to_multiple_platforms env (ci_video_url c) (ci_title c)
                   (ci_description c)) [] s) as Hs.
  destruct (save_publication_records env c _ [] s) as [[a'|e] s']; simpl; intros H;
    inversion H; subst; [| split; [simpl; lia | constructor]].
  destruct (Hs a eq_refl) as (added & -> & Hlen & Hin); simpl.
  rewrite fanout_length in Hlen; split; [exact Hlen|].
  apply Forall_forall; intros r Hr; destruct (Hin r Hr) as (res & Hres & ->).
  eapply fanout_result_platform; exact Hres.
Qed.

Lemma generation_loop_cons p rest s :
  exists s', generation_loop env (p :: rest) s = generation_loop env rest s' /\
    (s' = s \/
     exists c, s' = mkSt (incr_videos_created (st_results s)) (st_db s)
                         (st_content_items s ++ [c]) (st_publications s)).
Proof.
  cbn [generation_loop]; unfold bind at 1.
  rewrite try_noraise_eq by apply generation_body_noraise.
  pose proof (create_content_frame env p s) as Hf.
  destruct (create_content_noraise env p s) as [o Ho].
  destruct (create_content_for_product env p s) as [o' s1] eqn:E; simpl in Hf, Ho; subst.
  rewrite (bind_ok _ _ _ _ _ E).
  destruct o as [c|].
  - eexists; split; [reflexivity|]; right; exists c; reflexivity.
  - eexists; split; [reflexivity|]; left; reflexivity.
Qed.

Lemma generation_loop_effect products s :
  exists added s',
    generation_loop env products s = (Ok tt, s') /\
    st_content_items s' = (st_content_items s ++ added)%list /\
    (length added <= length products)%nat /\
    videos_created (st_results s') = (videos_created (st_results s) + length added)%nat /\
    posts_published (st_results s') = posts_published (st_results s) /\
    st_publications s' = st_publications s.
Proof.
  revert s; induction products as [|p rest IH]; intros s.
  - exists [], s; rewrite app_nil_r; repeat split; simpl; lia.
  - destruct (generation_loop_cons p rest s) as (s1 & -> & [-> | (c & ->)]).
    + destruct (IH s) as (added & s' & E & H1 & H2 & H3 & H4 & H5).
      exists added, s'; repeat split; try assumption; simpl; lia.
    + destruct (IH (mkSt (incr_videos_created (st_results s)) (st_db s)
                      (st_content_items s ++ [c]) (st_publications s)))
        as (added & s' & E & H1 & H2 & H3 & H4 & H5).
      exists (c :: added), s'; simpl in *.
      rewrite H1, <- app_assoc; repeat split; try assumption; simpl; lia.
Qed.

Lemma publishing_loop_cons c rest platforms s :
  exists a, fst (publish_content env c platforms s) = Ok a /\
    publishing_loop env (c :: rest) platforms s =
    publishing_loop env rest platforms
      (mkSt (add_posts_published (length a) (st_results s)) (st_db s)
            (st_content_items s) (st_publications s ++ a)).
Proof.
  cbn [publishing_loop]; unfold bind at 1.
  rewrite try_noraise_eq.
  2: { apply noraise_bind; [apply publish_content_noraise|].
       intros; apply noraise_bind; intros; apply noraise_modify. }
  pose proof (publish_content_frame env c platforms s) as Hf.
  destruct (publish_content_noraise env c platforms s) as [a Ha].
  destruct (publish_content env c platforms s) as [o s1] eqn:E; simpl in Hf, Ha; subst.
  exists a; split; [reflexivity|].
  rewrite (bind_ok _ _ _ _ _ E); reflexivity.
Qed.

Lemma publishing_loop_effect items platforms s :
  exists added s',
    publishing_loop env items platforms s = (Ok tt, s') /\
    st_publications s' = (st_publications s ++ added)%list /\
    (length added <= 3 * length items)%nat /\
    Forall fanout_platform added /\
    posts_published (st_results s') = (posts_published (st_results s) + length added)%nat /\
    videos_created (st_results s') = videos_created (st_results s) /\
    st_content_items s' = st_content_items s.
Proof.
  revert s; induction items as [|c rest IH]; intros s.
  - exists [], s; rewrite app_nil_r; repeat split; simpl; try lia; constructor.
  - destruct (publishing_loop_cons c rest platforms s) as (a & Ha & ->).
    destruct (publish_content_added c platforms s a Ha) as [Hla Hfa].
    destruct (IH (mkSt (add_posts_published (length a) (st_results s)) (st_db s)
                    (st_content_items s) (st_publications s ++ a)))
      as (added & s' & E & H1 & H2 & H3 & H4 & H5 & H6).
    exists (a ++ added)%list, s'; simpl in *.
    rewrite H1, <- app_assoc; repeat split; try assumption.
    + rewrite length_app; lia.
    + apply Forall_app; split; assumption.
    + rewrite H4, length_app; lia.
Qed.

(** The counters of every run against the local lists. *)
Lemma execute_counts target_platforms product_limit db :
  let s := execute_full_content_pipeline env target_platforms product_limit db in
  let r := st_results s in
  videos_created r = length (st_content_items s) /\
  posts_published r = length (st_publications s) /\
  (videos_created r <= products_discovered r)%nat /\
  (posts_published r <= 3 * videos_created r)%nat /\
  Forall fanout_platform (st_publications s).
Proof.
  intros s r; unfold r, s, execute_full_content_pipeline; clear s r.
  rewrite try_noraise_eq by apply pipeline_body_noraise.
  fold (initial_state db).
  pose proof (discover_frame env product_limit (initial_state db)) as Hfr.
  destruct (discover_noraise env product_limit (initial_state db)) as [products Hok].
  destruct (discover_and_save_products env product_limit (initial_state db)) as [o s1] eqn:Hd.
  simpl in Hok, Hfr; subst o.
  unfold pipeline_body; rewrite (bind_ok _ _ _ _ _ Hd); cbv beta.
  destruct Hfr as (Hr1 & Hc1 & Hp1).
  destruct products as [|p ps].
  - simpl; rewrite Hr1, Hc1, Hp1; simpl; repeat split; try lia; constructor.
  - rewrite bind_modify_results; cbv beta iota.
    set (s2 := mkSt _ _ _ _).
    pose proof (generation_loop_frame env (p :: ps) s2) as Hg.
    destruct (generation_loop_effect (p :: ps) s2)
      as (added & s3 & E3 & G1 & G2 & G3 & G4 & G5).
    rewrite E3 in Hg; simpl in Hg.
    rewrite (bind_ok _ _ _ _ _ E3), bind_get.
    pose proof (publishing_loop_frame env (st_content_items s3) target_platforms s3) as Hq.
    destruct (publishing_loop_effect (st_content_items s3) target_platforms s3)
      as (added2 & s4 & E4 & P1 & P2 & P3 & P4 & P5 & P6).
    rewrite E4 in Hq; simpl in Hq.
    rewrite (bind_ok _ _ _ _ _ E4), bind_get, bind_modify_results.
    destruct Hg as (_ & Hg2 & _), Hq as (_ & Hq2 & _).
    unfold s2 in *; simpl in *.
    rewrite Hr1, Hc1, Hp1 in *; simpl in *.
    rewrite P6, G1, P1, G5, P4, P5, G3, G4, Hq2, Hg2; simpl.
    rewrite G1 in P2; simpl in P2.
    repeat split; try lia; exact P3.
Qed.

End Counters.

(** *** Platforms and reach of a run *)

(** [_calculate_pipeline_metrics], on any list of records: the successful
    and failed counts add up to the number of records, [platforms_reached]
    has no repeated entry and no more entries than successful records, and
    the success rate lies in [0, 100]. *)
Theorem calculate_pipeline_metrics_consistent publication_results :
  let m := calculate_pipeline_metrics publication_results in
  (m_successful_publications m + m_failed_publications m =
   length publication_results)%nat /\
  NoDup (m_platforms_reached m) /\
  (length (m_platforms_reached m) <= m_successful_publications m)%nat /\
  0 <= m_success_rate m <= 100.
Proof.
  intros m; unfold m, calculate_pipeline_metrics; clear m; cbn [m_successful_publications
    m_failed_publications m_platforms_reached m_success_rate].
  pose proof (filter_length_le is_published publication_results) as Hle.
  split; [lia|]; split; [apply NoDup_nodup|]; split.
  - rewrite <- (length_map rec_platform (filter is_published publication_results)).
    apply NoDup_incl_length; [apply NoDup_nodup|].
    intros x; rewrite nodup_In; auto.
  - destruct (Nat.ltb_spec 0 (length publication_results)).
    + apply py_round2_bounds, rate_bounds; assumption.
    + apply py_round2_bounds; split; unfold Qle; simpl; lia.
Qed.

Lemma fanout_record_reach r :
  fanout_platform r -> rec_reach_ok r -> (3000 <= rec_reach r <= 10000)%Z.
Proof.
  unfold fanout_platform, rec_reach_ok; intros Hp ->.
  destruct Hp as [<- | [<- | [<- | []]]]; vm_compute; split; discriminate.
Qed.

Lemma reach_sum_bounds l :
  Forall (fun r => 3000 <= rec_reach r <= 10000)%Z l ->
  (3000 * Z.of_nat (length l) <= fold_right Z.add 0 (map rec_reach l) <=
   10000 * Z.of_nat (length l))%Z.
Proof.
  induction 1 as [|r l Hr Hl IH]; simpl; lia.
Qed.

Lemma execute_platforms env target_platforms product_limit db :
  let s := execute_full_content_pipeline env target_platforms product_limit db in
  let r := st_results s in
  Forall fanout_platform (st_publications s) /\
  (forall p, In p (platforms_reached r) -> In p [Some "tiktok"; Some "instagram"; Some "youtube"]) /\
  (length (platforms_reached r) <= 3)%nat /\
  (3000 * Z.of_nat (posts_published r) <= total_potential_reach r <=
   10000 * Z.of_nat (posts_published r))%Z.
Proof.
  intros s r; unfold r, s; clear s r.
  destruct (execute_counts env target_platforms product_limit db) as (_ & Hpp & _ & _ & Hf).
  pose proof (execute_pubs_ok env target_platforms product_limit db) as Hok.
  set (s := execute_full_content_pipeline env target_platforms product_limit db) in *.
  assert (Hin : forall p, In p (platforms_reached (st_results s)) ->
                          In p [Some "tiktok"; Some "instagram"; Some "youtube"]).
  { destruct (execute_shape env target_platforms product_limit db)
      as (products & s1 & Hd & [(_ & Hr & _ & Hp) | (_ & r & Hr & _)]);
      fold s in Hr; rewrite Hr; simpl; [intros p []|].
    intros p; rewrite nodup_In, in_map_iff; intros (x & <- & Hx).
    apply filter_In in Hx as [Hx _].
    rewrite Forall_forall in Hf; apply Hf, Hx. }
  split; [exact Hf|]; split; [exact Hin|]; split.
  - assert (Hnd : NoDup (platforms_reached (st_results s))).
    { destruct (execute_shape env target_platforms product_limit db)
        as (products & s1 & Hd & [(_ & Hr & _ & Hp) | (_ & r & Hr & _)]);
        fold s in Hr; rewrite Hr; simpl; [constructor | apply NoDup_nodup]. }
    apply (NoDup_incl_length Hnd Hin).
  - assert (Htot : total_potential_reach (st_results s) =
                   fold_right Z.add 0%Z (map rec_reach (st_publications s))).
    { destruct (execute_shape env target_platforms product_limit db)
        as (products & s1 & Hd & [(_ & Hr & _ & Hp) | (_ & r & Hr & _)]);
        fold s in Hr; rewrite Hr; [fold s in Hp; rewrite Hp|]; reflexivity. }
    rewrite Htot, Hpp; apply reach_sum_bounds.
    rewrite Forall_forall in Hf, Hok |- *; intros x Hx.
    apply fanout_record_reach; [apply Hf | apply Hok]; exact Hx.
Qed.

(** Every publication record of a run comes from TikTok, Instagram or
    YouTube, so [platforms_reached] holds only those platforms (at most
    three), and [total_potential_reach] lies between 3000 and 10000 per
    post counted in [posts_published]. *)
Theorem run_platforms_and_reach env target_platforms product_limit db :
  let s := execute_full_content_pipeline env target_platforms product_limit db in
  let r := st_results s in
  Forall (fun x => In (rec_platform x) [Some "tiktok"; Some "instagram"; Some "youtube"])
    (st_publications s) /\
  (forall p, In p (platforms_reached r) -> In p [Some "tiktok"; Some "instagram"; Some "youtube"]) /\
  (length (platforms_reached r) <= 3)%nat /\
  (3000 * Z.of_nat (posts_published r) <= total_potential_reach r <=
   10000 * Z.of_nat (posts_published r))%Z.
Proof. apply execute_platforms. Qed.

Lemma completed_publication_counts env target_platforms product_limit db :
  let r := st_results (execute_full_content_pipeline env target_platforms product_limit db) in
  status r = Completed ->
  exists k m, successful_publications r = Some k /\ failed_publications r = Some m /\
              (k + m)%nat = posts_published r.
Proof.
  intros r; unfold r; clear r.
  destruct (execute_counts env target_platforms product_limit db) as (_ & Hpp & _).
  destruct (execute_shape env target_platforms product_limit db)
    as (products & s1 & Hd & [(_ & Hr & _) | (_ & r & Hr & _)]);
    rewrite Hr in *; simpl; [discriminate|]; intros _.
  simpl in Hpp; rewrite Hpp.
  pose proof (filter_length_le is_published
                (st_publications (execute_full_content_pipeline env target_platforms
                                    product_limit db))).
  do 2 eexists; split; [reflexivity|]; split; [reflexivity|]; lia.
Qed.

(** The counters of every run agree with what the run produced:
    [videos_created] is the number of content items and [posts_published]
    the number of publication records (failed ones included); no more
    videos than discovered products and at most three posts per video; and
    in a completed run [successful_publications] and
    [failed_publications] add up to [posts_published]. *)
Theorem run_counters_consistent env target_platforms product_limit db :
  let s := execute_full_content_pipeline env target_platforms product_limit db in
  let r := st_results s in
  videos_created r = length (st_content_items s) /\
  posts_published r = length (st_publications s) /\
  (videos_created r <= products_discovered r)%nat /\
  (posts_published r <= 3 * videos_created r)%nat /\
  (status r = Completed ->
   exists k m, successful_publications r = Some k /\ failed_publications r = Some m /\
               (k + m)%nat = posts_published r).
Proof.
  intros s r.
  destruct (execute_counts env target_platforms product_limit db) as (H1 & H2 & H3 & H4 & _).
  repeat split; try assumption.
  apply completed_publication_counts.
Qed.

(** *** Routes *)

(** [publish_video_to_platforms] answers 404 for an unknown video;
    otherwise it reports ["completed"] with one result per platform
    (TikTok, Instagram, YouTube, whatever [platforms] asks for), and
    [platforms_published] counts the platforms whose attempt succeeded:
    TikTok and YouTube when their call returns, Instagram when the page id
    is set and its calls return. *)
Theorem publish_video_route env db video_id platforms :
  (get_video_by_id db video_id = None ->
   publish_video_to_platforms env db video_id platforms = HttpError 404 "Video not found") /\
  (forall video, get_video_by_id db video_id = Some video ->
   let video_url := get_default (vr_video_url video) "https://example.com/sample-video.mp4" in
   let title := get_default (vr_title video) "Untitled Video" in
   let description := get_default (vr_description video) "Check out this amazing product!" in
   exists body,
     publish_video_to_platforms env db video_id platforms = Respond body /\
     pv_status body = "completed" /\
     map pr_platform (pv_results body) = [Some "tiktok"; Some "instagram"; Some "youtube"] /\
     pv_platforms_published body =
       ((match env_tiktok env video_url description with Ok _ => 1 | Raise _ => 0 end) +
        (if String.eqb (env_instagram_page_id env) "" then 0
         else match env_instagram env video_url description with
              | Ok _ => 1 | Raise _ => 0 end) +
        (match env_youtube env video_url title description with
         | Ok _ => 1 | Raise _ => 0 end))%nat /\
     (pv_platforms_published body <= 3)%nat /\
     (forall platforms', publish_video_to_platforms env db video_id platforms' = Respond body)).
Proof.
  split; [intros H; unfold publish_video_to_platforms; rewrite H; reflexivity|].
  intros video H; cbv zeta.
  eexists; split; [unfold publish_video_to_platforms; rewrite H; reflexivity|].
  cbn [pv_status pv_results pv_platforms_published].
  split; [reflexivity|]; split; [apply publish_to_multiple_platforms_platforms|].
  split; [| split; [| intros platforms'; unfold publish_video_to_platforms;
                      rewrite H; reflexivity]].
  - unfold publish_to_multiple_platforms, publish_to_tiktok, publish_to_instagram,
      publish_to_youtube.
    repeat match goal with |- context [match ?x with _ => _ end] => destruct x end;
      reflexivity.
  - unfold publish_to_multiple_platforms, gather_results.
    eapply Nat.le_trans; [apply filter_length_le | rewrite length_map; reflexivity].
Qed.

Lemma empty_discovery_results env target_platforms product_limit db :
  fst (discover_and_save_products env product_limit (initial_state db)) = Ok [] ->
  st_results (execute_full_content_pipeline env target_platforms product_limit db) =
  add_error "No trending products found"
    (set_status Failed (set_products_discovered 0 initial_results)).
Proof.
  intros H.
  destruct (execute_shape env target_platforms product_limit db)
    as (products & s1 & Hd & [(-> & Hr & _) | (Hne & _)]); [exact Hr|].
  rewrite Hd in H; simpl in H; inversion H; subst; congruence.
Qed.

(** [test_automation_pipeline] always answers [pipeline_health = "healthy"]
    and [ready_for_production = True], because
    [quick_content_generation_test] reports ["completed"] whatever the
    pipeline did: also when discovery finds no product and the embedded
    pipeline result is ["failed"] with the error
    ["No trending products found"]. *)
Theorem test_pipeline_always_healthy env db :
  exists body,
    test_automation_pipeline env db = Respond body /\
    tb_pipeline_health body = "healthy" /\ tb_ready_for_production body = true /\
    qt_pipeline_result (tb_test_results body) =
      st_results (execute_full_content_pipeline env ["tiktok"; "instagram"; "youtube"] 2 db) /\
    (fst (discover_and_save_products env 2 (initial_state db)) = Ok [] ->
     status (qt_pipeline_result (tb_test_results body)) = Failed /\
     errors (qt_pipeline_result (tb_test_results body)) = ["No trending products found"]).
Proof.
  eexists; split; [reflexivity|]; cbn.
  split; [reflexivity|]; split; [reflexivity|]; split; [reflexivity|].
  intros H; rewrite (empty_discovery_results env _ 2 db H); split; reflexivity.
Qed.

Lemma execute_products_discovered_le env target_platforms product_limit db :
  (0 <= product_limit)%Z ->
  (products_discovered
     (st_results (execute_full_content_pipeline env target_platforms product_limit db))
   <= Z.to_nat product_limit)%nat.
Proof.
  intros Hl.
  destruct (execute_shape env target_platforms product_limit db)
    as (products & s1 & Hd & [(_ & Hr & _) | (_ & r & Hr & _ & Hpd & _)]);
    rewrite Hr; simpl; [lia|].
  rewrite Hpd; apply (discover_length env product_limit (initial_state db)); [exact Hl|].
  rewrite Hd; reflexivity.
Qed.

Lemma execute_status env target_platforms product_limit db :
  let r := st_results (execute_full_content_pipeline env target_platforms product_limit db) in
  status r = Completed \/ status r = Failed.
Proof.
  intros r; unfold r; clear r.
  destruct (execute_shape env target_platforms product_limit db)
    as (products & s1 & Hd & [(_ & Hr & _) | (_ & r & Hr & _)]);
    rewrite Hr; simpl; auto.
Qed.

(** [one_click_generate_and_publish] always answers with its report (the
    500 branch is never taken): the automation status is ["completed"] or
    ["failed"], at most 3 products are discovered, the live content pieces
    are the videos generated, no more than the products, with at most three
    posts per video, and at most three platforms are active. *)
Theorem one_click_report_bounds env db :
  exists body,
    one_click_generate_and_publish env db = Respond body /\
    (oc_automation_status body = Completed \/ oc_automation_status body = Failed) /\
    (oc_products_discovered body <= 3)%nat /\
    oc_content_pieces_live body = oc_videos_generated body /\
    (oc_videos_generated body <= oc_products_discovered body)%nat /\
    (oc_posts_published body <= 3 * oc_videos_generated body)%nat /\
    (oc_platforms_active body <= 3)%nat.
Proof.
  eexists; split; [reflexivity|]; cbn.
  set (tp := ["tiktok"; "instagram"; "youtube"]).
  destruct (execute_counts env tp 3 db) as (_ & _ & H3 & H4 & _).
  destruct (execute_platforms env tp 3 db) as (_ & _ & Hp & _).
  pose proof (execute_products_discovered_le env tp 3 db ltac:(lia)) as Hpd.
  pose proof (execute_status env tp 3 db) as Hs.
  repeat split; try assumption; simpl in Hpd; lia.
Qed.
